(** * NearLink messaging: conversations, messages and their row policies

    A shallow embedding of the messaging subsystem of the NearLink
    application:

    - the [conversations] and [messages] tables and their row-level-security
      policies (the messaging migration),
    - the conversation resolver [getOrCreateConversation] (lib/messaging),
    - the chat screen's [fetchMessages] and [handleSendMessage]
      (app/chat/[id].tsx).

    The relational store is an explicit value of type [database] that every
    operation receives and returns.  What the backend decides on its own
    during one request (the uuid drawn by [gen_random_uuid()], the value of
    [now()], whether the request reaches the store at all) is the
    [round_trip] argument of that request. *)

From Stdlib Require Import String Ascii ZArith List Bool Lia Permutation Sorted.
Import ListNotations.

Local Open Scope Z_scope.
Local Open Scope list_scope.

(** ** Column types *)

Definition uuid := string.
Definition timestamptz := Z.

(** SQL [col = v] on a nullable column: NULL never compares equal. *)
Definition eq_col (col : option uuid) (v : option string) : bool :=
  match col, v with
  | Some x, Some y => String.eqb x y
  | _, _ => false
  end.

(** ** Tables *)

Module Conversations.
Record row := mk {
  id : uuid;
  participant_1_id : uuid;
  participant_2_id : uuid;
  listing_id : option uuid;
  request_id : option uuid;
  last_message_at : timestamptz;
  created_at : timestamptz
}.
End Conversations.

Module Messages.
Record row := mk {
  id : uuid;
  conversation_id : uuid;
  sender_id : uuid;
  content : string;
  created_at : timestamptz;
  read_at : option timestamptz
}.
End Messages.

Record database := mkDb {
  conversations : list Conversations.row;
  messages : list Messages.row
}.

Definition empty_db : database := mkDb [] [].

(** ** Requests and responses *)

(** What a supabase call resolves to: [{ data, error }]. *)
Inductive store_error :=
| Forbidden            (* row-level security rejected the statement *)
| UniqueViolation      (* primary key already present *)
| ForeignKeyViolation  (* referenced conversation missing *)
| MultipleRows         (* maybeSingle()/single() on more than one row *)
| NoRows               (* single() on zero rows *)
| Unreachable.         (* the request never reached the store *)

Inductive response (A : Type) :=
| Data (data : A)
| Error (error : store_error).

Arguments Data {A} data.
Arguments Error {A} error.

Record round_trip := mkRt {
  gen_random_uuid : uuid;
  now : timestamptz;
  reachable : bool
}.

(** The session: [auth.uid()] of an authenticated caller, [None] for the
    anonymous role (every policy below is declared [TO authenticated]). *)
Definition session := option uuid.

(** ** Row-level security policies *)

Module Policy.
Import Conversations.

(** "Users can view own conversations" *)
Definition conversations_select (uid : uuid) (c : Conversations.row) : bool :=
  String.eqb uid (participant_1_id c) || String.eqb uid (participant_2_id c).

(** "Users can create conversations" *)
Definition conversations_insert_check (uid : uuid) (c : Conversations.row) : bool :=
  String.eqb uid (participant_1_id c) || String.eqb uid (participant_2_id c).

(** "Conversation participants can view messages" *)
Definition messages_select (uid : uuid) (db : database) (m : Messages.row) : bool :=
  existsb
    (fun c => String.eqb (id c) (Messages.conversation_id m)
              && (String.eqb (participant_1_id c) uid
                  || String.eqb (participant_2_id c) uid))
    (conversations db).

(** "Authenticated users can send messages" *)
Definition messages_insert_check (uid : uuid) (m : Messages.row) : bool :=
  String.eqb uid (Messages.sender_id m).

(** "Recipients can update read_at timestamp": the same expression is the
    USING clause (on the existing row) and the WITH CHECK clause (on the
    row as updated). *)
Definition messages_update_using (uid : uuid) (db : database) (m : Messages.row) : bool :=
  existsb
    (fun c => String.eqb (id c) (Messages.conversation_id m)
              && String.eqb (participant_2_id c) uid)
    (conversations db).

Definition messages_update_check (uid : uuid) (db : database) (m : Messages.row) : bool :=
  existsb
    (fun c => String.eqb (id c) (Messages.conversation_id m)
              && String.eqb (participant_2_id c) uid)
    (conversations db).

(** A policy declared [TO authenticated] grants nothing to the anonymous
    role. *)
Definition authenticated {A : Type} (policy : uuid -> A -> bool)
           (s : session) (a : A) : bool :=
  match s with
  | Some uid => policy uid a
  | None => false
  end.
End Policy.

(** ** The supabase client over the store *)

Module Supabase.
Import Policy.

(** [.maybeSingle()] *)
Definition maybeSingle {A : Type} (r : response (list A)) : response (option A) :=
  match r with
  | Error e => Error e
  | Data [] => Data None
  | Data [a] => Data (Some a)
  | Data (_ :: _ :: _) => Error MultipleRows
  end.

(** [.single()] *)
Definition single {A : Type} (r : response (list A)) : response A :=
  match r with
  | Error e => Error e
  | Data [] => Error NoRows
  | Data [a] => Data a
  | Data (_ :: _ :: _) => Error MultipleRows
  end.

(** [from('conversations').select(..)] with the chained filters [where_]:
    the rows the session may see that pass the filters. *)
Definition select_conversations (rt : round_trip) (s : session) (db : database)
           (where_ : Conversations.row -> bool) : response (list Conversations.row) :=
  if reachable rt
  then Data (filter (fun c => authenticated conversations_select s c && where_ c)
                    (conversations db))
  else Error Unreachable.

(** [.eq('id', i)] on [messages]. *)
Definition by_id (i : uuid) (m : Messages.row) : bool :=
  String.eqb (Messages.id m) i.

(** No key occurs twice. *)
Fixpoint distinct (keys : list uuid) : bool :=
  match keys with
  | [] => true
  | k :: keys' => negb (existsb (String.eqb k) keys') && distinct keys'
  end.

Definition has_conversation (db : database) (i : uuid) : bool :=
  existsb (fun c => String.eqb (Conversations.id c) i) (conversations db).

Definition has_message (db : database) (i : uuid) : bool :=
  existsb (fun m => String.eqb (Messages.id m) i) (messages db).

(** [from('conversations').insert({..}).select(..)]: the columns not given
    take their defaults; the new row must pass the insert policy and, being
    returned, the select policy; [id] is the primary key.  The REFERENCES
    constraints of the four uuid columns point to [profiles], [listings] and
    [requests], tables this store does not hold: they are not checked, so an
    insert answered with [Data] here may be refused by a store that lacks the
    referenced row. *)
Definition insert_conversation (rt : round_trip) (s : session) (db : database)
           (participant_1_id participant_2_id : uuid)
           (listing_id request_id : option uuid)
  : database * response (list Conversations.row) :=
  if negb (reachable rt) then (db, Error Unreachable) else
  let new :=
    Conversations.mk (gen_random_uuid rt) participant_1_id participant_2_id
                     listing_id request_id (now rt) (now rt) in
  if negb (authenticated conversations_insert_check s new
           && authenticated conversations_select s new)
  then (db, Error Forbidden)
  else if has_conversation db (Conversations.id new)
  then (db, Error UniqueViolation)
  else (mkDb (conversations db ++ [new]) (messages db), Data [new]).

(** [from('messages').insert({..})], with [.select()] chained when
    [returning] is set.  [sender_id] is [user?.id]: when it is undefined
    the policy's comparison with [auth.uid()] is not true. *)
Definition insert_message (rt : round_trip) (s : session) (db : database)
           (returning : bool) (conversation_id : uuid)
           (sender_id : option uuid) (content : string)
  : database * response (list Messages.row) :=
  if negb (reachable rt) then (db, Error Unreachable) else
  match sender_id with
  | None => (db, Error Forbidden)
  | Some sender =>
      let new :=
        Messages.mk (gen_random_uuid rt) conversation_id sender content
                    (now rt) None in
      if negb (authenticated messages_insert_check s new
               && (negb returning
                   || authenticated (fun uid => messages_select uid db) s new))
      then (db, Error Forbidden)
      else if has_message db (Messages.id new)
      then (db, Error UniqueViolation)
      else if negb (has_conversation db conversation_id)
      then (db, Error ForeignKeyViolation)
      else (mkDb (conversations db) (messages db ++ [new]),
            Data (if returning then [new] else []))
  end.

(** [ORDER BY created_at DESC] as an insertion sort; among rows of equal
    [created_at] SQL fixes no order, this one keeps the table's. *)
Fixpoint insert_desc (m : Messages.row) (l : list Messages.row) : list Messages.row :=
  match l with
  | [] => [m]
  | x :: l' =>
      if Z.leb (Messages.created_at x) (Messages.created_at m)
      then m :: x :: l'
      else x :: insert_desc m l'
  end.

Definition order_by_created_at_desc (l : list Messages.row) : list Messages.row :=
  fold_right insert_desc [] l.

(** [from('messages').select('*')] with filters [where_] and
    [.order('created_at', { ascending: false })]. *)
Definition select_messages (rt : round_trip) (s : session) (db : database)
           (where_ : Messages.row -> bool) : response (list Messages.row) :=
  if reachable rt
  then Data (order_by_created_at_desc
               (filter (fun m => authenticated (fun uid => messages_select uid db) s m
                                 && where_ m)
                       (messages db)))
  else Error Unreachable.

(** [from('messages').update(..)] with filters [where_]: the rows that pass
    the filters and the policy's USING clause are replaced by [set_]
    of them; a replaced row that fails WITH CHECK aborts the statement, and
    so does a clash on the primary key.  The response carries the rows as
    updated. *)
Definition update_targets (s : session) (db : database)
           (where_ : Messages.row -> bool) (m : Messages.row) : bool :=
  where_ m && authenticated (fun uid => messages_update_using uid db) s m.

Definition update_messages (rt : round_trip) (s : session) (db : database)
           (where_ : Messages.row -> bool) (set_ : Messages.row -> Messages.row)
  : database * response (list Messages.row) :=
  if negb (reachable rt) then (db, Error Unreachable) else
  if existsb (fun m => update_targets s db where_ m
                       && negb (authenticated (fun uid => messages_update_check uid db)
                                              s (set_ m)))
             (messages db)
  then (db, Error Forbidden)
  else
    let rows := map (fun m => if update_targets s db where_ m then set_ m else m)
                    (messages db) in
    if negb (distinct (map Messages.id rows))
    then (db, Error UniqueViolation)
    else (mkDb (conversations db) rows,
          Data (map set_ (filter (update_targets s db where_) (messages db)))).

(** [from('conversations').update(..)] with filters [where_].  The
    migration enables row-level security on [conversations] and declares
    policies for SELECT and INSERT only; which rows the store lets a
    session update is the argument [update_using].  Rows it does not grant
    are skipped without an error. *)
Definition update_conversations (update_using : uuid -> Conversations.row -> bool)
           (rt : round_trip) (s : session) (db : database)
           (where_ : Conversations.row -> bool)
           (set_ : Conversations.row -> Conversations.row)
  : database * response unit :=
  if negb (reachable rt) then (db, Error Unreachable) else
  (mkDb (map (fun c => if where_ c && authenticated update_using s c
                       then set_ c else c)
             (conversations db))
        (messages db),
   Data tt).
End Supabase.

(** ** lib/messaging: the conversation resolver *)

(** JavaScript truthiness of an optional string argument: [undefined] and
    the empty string are falsy. *)
Definition truthy (v : option string) : bool :=
  match v with
  | Some s => negb (String.eqb s EmptyString)
  | None => false
  end.

(** [v || null] *)
Definition or_null (v : option string) : option string :=
  if truthy v then v else None.

(** The filters chained onto the lookup query. *)
Definition lookup_filter (userId otherUserId : string)
           (listingId requestId : option string) (c : Conversations.row) : bool :=
  let query :=
    String.eqb (Conversations.participant_1_id c) userId
    && String.eqb (Conversations.participant_2_id c) otherUserId in
  let query :=
    if truthy listingId
    then query && eq_col (Conversations.listing_id c) listingId
    else query in
  let query :=
    if truthy requestId
    then query && eq_col (Conversations.request_id c) requestId
    else query in
  query.

(** A thrown error is the [Error] response; the two requests of one call
    are [lookup] and [create]. *)
Definition getOrCreateConversation (lookup create : round_trip) (s : session)
           (db : database) (userId otherUserId : string)
           (listingId requestId : option string) : database * response uuid :=
  match Supabase.maybeSingle
          (Supabase.select_conversations lookup s db
             (lookup_filter userId otherUserId listingId requestId)) with
  | Error error => (db, Error error)
  | Data (Some data) => (db, Data (Conversations.id data))
  | Data None =>
      match Supabase.insert_conversation create s db userId otherUserId
              (or_null listingId) (or_null requestId) with
      | (db', r) =>
          match Supabase.single r with
          | Error createError => (db', Error createError)
          | Data newConv => (db', Data (Conversations.id newConv))
          end
      end
  end.

(** ** app/chat/[id].tsx: the chat screen *)

Module Chat.

(** The component state the two handlers touch. *)
Record state := mkState {
  st_messages : list Messages.row;
  messageText : string;
  loading : bool;
  sending : bool
}.

(** What a handler leaves behind besides the state: nothing (early
    return), the row it obtained, or the error it caught and logged. *)
Inductive outcome :=
| Returned
| Sent (data : Messages.row)
| Caught (error : store_error).

(** White space removed by [String.prototype.trim] among the code units
    below 256. *)
Definition is_white_space (a : ascii) : bool :=
  let n := nat_of_ascii a in
  (Nat.leb 9 n && Nat.leb n 13) || Nat.eqb n 32 || Nat.eqb n 160.

Fixpoint trim_start (s : string) : string :=
  match s with
  | EmptyString => EmptyString
  | String a s' => if is_white_space a then trim_start s' else s
  end.

Fixpoint rev_append (s acc : string) : string :=
  match s with
  | EmptyString => acc
  | String a s' => rev_append s' (String a acc)
  end.

Definition trim (s : string) : string :=
  rev_append (trim_start (rev_append (trim_start s) EmptyString)) EmptyString.

(** [fetchMessages] *)
Definition fetchMessages (rt : round_trip) (user : session) (db : database)
           (id : string) (st : state) : state * outcome :=
  match Supabase.select_messages rt user db
          (fun m => String.eqb (Messages.conversation_id m) id) with
  | Error error =>
      (mkState (st_messages st) (messageText st) false (sending st), Caught error)
  | Data data =>
      (mkState data (messageText st) false (sending st), Returned)
  end.

Definition set_last_message_at (t : timestamptz) (c : Conversations.row)
  : Conversations.row :=
  Conversations.mk (Conversations.id c) (Conversations.participant_1_id c)
                   (Conversations.participant_2_id c) (Conversations.listing_id c)
                   (Conversations.request_id c) t (Conversations.created_at c).

(** [handleSendMessage].  [insert] and [update] are its two requests,
    [date] is the client's [new Date()]; [user] is the signed-in user, both
    the session of the requests and the source of [user?.id]. *)
Definition handleSendMessage
           (conversations_update_using : uuid -> Conversations.row -> bool)
           (insert update : round_trip) (date : timestamptz)
           (id : option string) (user : session)
           (st : state) (db : database) : state * database * outcome :=
  match id with
  | None => (st, db, Returned)
  | Some conv =>
      if String.eqb (trim (messageText st)) EmptyString || negb (truthy id)
      then (st, db, Returned)
      else
        let text := messageText st in
        match Supabase.insert_message insert user db true conv user text with
        | (db1, r) =>
            match Supabase.single r with
            | Error error =>
                (mkState (st_messages st) text (loading st) false, db1, Caught error)
            | Data data =>
                let (db2, _) :=
                  Supabase.update_conversations conversations_update_using
                    update user db1
                    (fun c => String.eqb (Conversations.id c) conv)
                    (set_last_message_at date) in
                (mkState (data :: st_messages st) EmptyString (loading st) false,
                 db2, Sent data)
            end
        end
  end.
End Chat.

(** ** mark_read *)

Definition set_read_at (t : timestamptz) (m : Messages.row) : Messages.row :=
  Messages.mk (Messages.id m) (Messages.conversation_id m) (Messages.sender_id m)
              (Messages.content m) (Messages.created_at m) (Some t).

(** Modelled from the spec: the application has no function that marks a
    message read; [mark_read message_id reader_id] is the update of
    [read_at] on the row with that id, issued by [reader] through the
    client, so that the UPDATE policy of the migration decides it. *)
Definition mark_read (rt : round_trip) (date : timestamptz) (reader : session)
           (db : database) (message_id : uuid)
  : database * response (list Messages.row) :=
  Supabase.update_messages rt reader db (Supabase.by_id message_id) (set_read_at date).

(** ** Store invariants and reachable states *)

(** The primary keys of the two tables. *)
Definition conversations_pkey (db : database) : Prop :=
  NoDup (map Conversations.id (conversations db)).

Definition messages_pkey (db : database) : Prop :=
  NoDup (map Messages.id (messages db)).

(** The foreign key of [messages.conversation_id]. *)
Definition messages_conversation_fkey (db : database) : Prop :=
  forall m, In m (messages db) ->
            Supabase.has_conversation db (Messages.conversation_id m) = true.

(** [uid] is one of the two participants of [c]. *)
Definition participant (uid : uuid) (c : Conversations.row) : Prop :=
  uid = Conversations.participant_1_id c \/ uid = Conversations.participant_2_id c.

(** Every message of the store was sent by a participant of the
    conversation that owns it. *)
Definition senders_are_participants (db : database) : Prop :=
  forall m c,
    In m (messages db) -> In c (conversations db) ->
    Messages.conversation_id m = Conversations.id c ->
    participant (Messages.sender_id m) c.

(** The rows of [db] that carry exactly the tuple
    (participant_1_id, participant_2_id, listing_id, request_id). *)
Definition option_eqb (a b : option uuid) : bool :=
  match a, b with
  | Some x, Some y => String.eqb x y
  | None, None => true
  | _, _ => false
  end.

Definition rows_of_tuple (db : database) (p1 p2 : uuid) (l r : option uuid)
  : list Conversations.row :=
  filter (fun c => String.eqb (Conversations.participant_1_id c) p1
                   && String.eqb (Conversations.participant_2_id c) p2
                   && option_eqb (Conversations.listing_id c) l
                   && option_eqb (Conversations.request_id c) r)
         (conversations db).

(** In a newest-first listing [a] may stand before [b]: it is not older. *)
Definition newer_first (a b : Messages.row) : Prop :=
  Messages.created_at b <= Messages.created_at a.

(** The states the client statements can produce under the policies. *)
Inductive reachable_state : database -> Prop :=
| reach_empty : reachable_state empty_db
| reach_insert_conversation rt s db p1 p2 l r :
    reachable_state db ->
    reachable_state (fst (Supabase.insert_conversation rt s db p1 p2 l r))
| reach_insert_message rt s db returning conv sender content :
    reachable_state db ->
    reachable_state (fst (Supabase.insert_message rt s db returning conv sender content))
| reach_update_messages rt s db where_ set_ :
    reachable_state db ->
    reachable_state (fst (Supabase.update_messages rt s db where_ set_))
| reach_update_last_message_at update_using rt s db where_ t :
    reachable_state db ->
    reachable_state (fst (Supabase.update_conversations update_using rt s db where_
                            (Chat.set_last_message_at t))).

(** ** app/(tabs): opening a chat from the browse and requests screens *)

(** A listing or a request, as far as the two [handleChat] read it. *)
Record item := mkItem {
  item_id : uuid;
  user_id : uuid
}.

(** What [handleChat] ends in: one of its three alerts (the third with the
    error the resolver logged before rethrowing), or the route it pushes. *)
Inductive opening :=
| MustBeLoggedIn
| CannotChatWithYourself
| Pushed (conversationId : uuid)
| CouldNotOpenChat (logged : store_error).

Module Browse.

(** [handleChat] of the browse screen: the listing is the third argument
    of the resolver, the fourth is left out. *)
Definition handleChat (lookup create : round_trip) (user : session)
           (db : database) (listing : item) : database * opening :=
  match user with
  | None => (db, MustBeLoggedIn)
  | Some id =>
      if String.eqb id (user_id listing) then (db, CannotChatWithYourself)
      else
        match getOrCreateConversation lookup create user db id (user_id listing)
                (Some (item_id listing)) None with
        | (db', Data conversationId) => (db', Pushed conversationId)
        | (db', Error error) => (db', CouldNotOpenChat error)
        end
  end.
End Browse.

Module Requests.

(** [handleChat] of the requests screen: [undefined] for the listing, the
    request as fourth argument. *)
Definition handleChat (lookup create : round_trip) (user : session)
           (db : database) (request : item) : database * opening :=
  match user with
  | None => (db, MustBeLoggedIn)
  | Some id =>
      if String.eqb id (user_id request) then (db, CannotChatWithYourself)
      else
        match getOrCreateConversation lookup create user db id (user_id request)
                None (Some (item_id request)) with
        | (db', Data conversationId) => (db', Pushed conversationId)
        | (db', Error error) => (db', CouldNotOpenChat error)
        end
  end.
End Requests.

(** ** app/chat/[id].tsx: the header of the chat screen *)

Module ChatHeader.

(** The value handed to [setConversation]: the row, the embedded
    [listing] and [request] titles, and [other_participant.full_name]. *)
Record view := mkView {
  row : Conversations.row;
  listing : option string;
  request : option string;
  other_participant : string
}.

(** [a || b] on a string that may be missing. *)
Definition or_else (a : option string) (b : string) : string :=
  match a with
  | Some s => if String.eqb s EmptyString then b else s
  | None => b
  end.

(** [data.participant_1_id === user?.id ? data.participant_2_id
    : data.participant_1_id] *)
Definition otherParticipantId (user : session) (data : Conversations.row) : uuid :=
  match user with
  | Some id =>
      if String.eqb (Conversations.participant_1_id data) id
      then Conversations.participant_2_id data
      else Conversations.participant_1_id data
  | None => Conversations.participant_1_id data
  end.

(** [fetchConversation].  The tables [listings], [requests] and [profiles]
    enter through what a select on them returns to the session:
    [listings_title i] and [requests_title i] are the title of the row with
    id [i] when the session may see it, [profiles_full_name i] the
    full_name of the profile [i] when there is one.  [select] and [profile]
    are the two requests; the error of the second is not looked at. *)
Definition fetchConversation
           (listings_title requests_title profiles_full_name : uuid -> option string)
           (select profile : round_trip) (user : session) (db : database)
           (id : string) (conversation : option view) : option view * Chat.outcome :=
  match Supabase.maybeSingle
          (Supabase.select_conversations select user db
             (fun c => String.eqb (Conversations.id c) id)) with
  | Error error => (conversation, Chat.Caught error)
  | Data None => (conversation, Chat.Returned)
  | Data (Some data) =>
      let embed (titles : uuid -> option string) (ref : option uuid) :=
        match ref with
        | Some i => titles i
        | None => None
        end in
      let profile_full_name :=
        if reachable profile
           && Policy.authenticated (fun _ _ => true) user (otherParticipantId user data)
        then profiles_full_name (otherParticipantId user data)
        else None in
      (Some (mkView data
                    (embed listings_title (Conversations.listing_id data))
                    (embed requests_title (Conversations.request_id data))
                    (or_else profile_full_name "User")),
       Chat.Returned)
  end.
End ChatHeader.

(** ** app/(tabs)/messages: the list of conversations *)

Module Inbox.

(** One element of the list: the row with what the select embeds (the
    messages' content and created_at, the listing's and the request's title)
    and [other_participant]. *)
Record entry := mkEntry {
  row : Conversations.row;
  messages_of : list (string * timestamptz);
  listing : option string;
  request : option string;
  other_participant_id : uuid;
  other_participant_full_name : string
}.

(** How [fetchConversations] ends: the list is set, or an error is caught
    and logged; with no user the filter reads [eq.undefined], which the store
    refuses as a uuid. *)
Inductive outcome :=
| Listed
| Caught (error : store_error)
| InvalidUuid.

(** [.order('last_message_at', { ascending: false })], an insertion sort as
    for the messages. *)
Fixpoint insert_desc (c : Conversations.row) (l : list Conversations.row)
  : list Conversations.row :=
  match l with
  | [] => [c]
  | x :: l' =>
      if Z.leb (Conversations.last_message_at x) (Conversations.last_message_at c)
      then c :: x :: l'
      else x :: insert_desc c l'
  end.

Definition order_by_last_message_at_desc (l : list Conversations.row)
  : list Conversations.row :=
  fold_right insert_desc [] l.

(** The messages embedded in a row: those of the conversation the session
    may see (the order among them is the table's here; the select asks for
    none). *)
Definition embedded_messages (user : session) (db : database) (c : Conversations.row)
  : list (string * timestamptz) :=
  map (fun m => (Messages.content m, Messages.created_at m))
      (filter (fun m => Policy.authenticated (fun uid => Policy.messages_select uid db) user m
                        && String.eqb (Messages.conversation_id m) (Conversations.id c))
              (messages db)).

(** [fetchConversations].  [select] and [profiles] are its two requests;
    the tables [listings], [requests] and [profiles] enter as in
    [ChatHeader.fetchConversation]. *)
Definition fetchConversations
           (listings_title requests_title profiles_full_name : uuid -> option string)
           (select profiles : round_trip) (user : session) (db : database)
           (listed : list entry) : list entry * outcome :=
  if negb (reachable select) then (listed, Caught Unreachable) else
  match user with
  | None => (listed, InvalidUuid)
  | Some id =>
      let data :=
        order_by_last_message_at_desc
          (filter (fun c => Policy.authenticated Policy.conversations_select user c
                            && (String.eqb (Conversations.participant_1_id c) id
                                || String.eqb (Conversations.participant_2_id c) id))
                  (conversations db)) in
      let embed (titles : uuid -> option string) (ref : option uuid) :=
        match ref with
        | Some i => titles i
        | None => None
        end in
      let enhancedConversations :=
        map (fun conv =>
               mkEntry conv (embedded_messages user db conv)
                       (embed listings_title (Conversations.listing_id conv))
                       (embed requests_title (Conversations.request_id conv))
                       (ChatHeader.otherParticipantId user conv)
                       EmptyString)
            data in
      let named :=
        match enhancedConversations with
        | [] => enhancedConversations
        | _ :: _ =>
            if reachable profiles
            then map (fun conv =>
                        mkEntry (row conv) (messages_of conv) (listing conv) (request conv)
                                (other_participant_id conv)
                                (ChatHeader.or_else
                                   (profiles_full_name (other_participant_id conv))
                                   "Unknown"))
                     enhancedConversations
            else enhancedConversations
        end in
      (named, Listed)
  end.
End Inbox.

(** In the list of conversations [a] may stand before [b]: its last
    message is not older. *)
Definition latest_first (a b : Conversations.row) : Prop :=
  Conversations.last_message_at b <= Conversations.last_message_at a.

(** ** Stores written through the two screens *)

(** The row is about one item: a listing or a request, not both, not none. *)
Definition about_one_item (c : Conversations.row) : Prop :=
  (exists l, Conversations.listing_id c = Some l /\ l <> EmptyString
             /\ Conversations.request_id c = None)
  \/ (exists r, Conversations.request_id c = Some r /\ r <> EmptyString
                /\ Conversations.listing_id c = None).

Definition same_tuple (c c' : Conversations.row) : Prop :=
  Conversations.participant_1_id c = Conversations.participant_1_id c'
  /\ Conversations.participant_2_id c = Conversations.participant_2_id c'
  /\ Conversations.listing_id c = Conversations.listing_id c'
  /\ Conversations.request_id c = Conversations.request_id c'.

(** What the two [handleChat] keep true of the conversations: ids are
    unique, every row is between two different users about one item, and no
    two rows carry the same tuple. *)
Definition screen_store (db : database) : Prop :=
  conversations_pkey db
  /\ (forall c, In c (conversations db) ->
                about_one_item c
                /\ Conversations.participant_1_id c <> Conversations.participant_2_id c)
  /\ (forall c c', In c (conversations db) -> In c' (conversations db) ->
                   same_tuple c c' -> c = c').

(** Every character is white space. *)
Fixpoint blank (s : string) : bool :=
  match s with
  | EmptyString => true
  | String a s' => Chat.is_white_space a && blank s'
  end.

(** ** Sample data *)

Module Sample.
Local Open Scope string_scope.

Definition alice : uuid := "alice".
Definition bob : uuid := "bob".
Definition mallory : uuid := "mallory".

Definition bike : uuid := "listing-bike".
Definition lamp : uuid := "listing-lamp".
Definition sofa_wanted : uuid := "request-sofa".

(** alice wrote to bob about his bike. *)
Definition about_bike : Conversations.row :=
  Conversations.mk "c-1" alice bob (Some bike) None 100 100.

(** alice answered bob's request for a sofa. *)
Definition about_sofa : Conversations.row :=
  Conversations.mk "c-2" alice bob None (Some sofa_wanted) 110 110.

Definition hello : Messages.row :=
  Messages.mk "m-1" "c-1" alice "is it still there?" 120 None.

Definition reply : Messages.row :=
  Messages.mk "m-2" "c-1" bob "yes" 130 None.

Definition later : Messages.row :=
  Messages.mk "m-3" "c-1" alice "coming at six" 140 None.

Definition one_conversation : database := mkDb [about_bike] [].
Definition two_conversations : database := mkDb [about_bike; about_sofa] [].
Definition chat : database := mkDb [about_bike] [hello; reply; later].

(** [hello] with another text. *)
Definition rewritten : Messages.row :=
  Messages.mk "m-1" "c-1" alice "take it for free" 120 None.

(** mallory, a stranger to that conversation, writes into it. *)
Definition intrusion : Messages.row :=
  Messages.mk "m-9" "c-1" mallory "hi" 150 None.

Definition intruded : database := mkDb [about_bike] [intrusion].

(** A request that reaches the store, drawing uuid [g] at time [t]. *)
Definition request (g : uuid) (t : timestamptz) : round_trip := mkRt g t true.
End Sample.

(** bob's bike as the browse screen lists it, his wish for a sofa as the
    requests screen does. *)
Definition bike_listing : item := mkItem Sample.bike Sample.bob.
Definition sofa_request : item := mkItem Sample.sofa_wanted Sample.bob.

(** alice has written, bob has not answered yet. *)
Definition greeted : database := mkDb [Sample.about_bike] [Sample.hello].
Definition answered : database := mkDb [Sample.about_bike] [Sample.hello; Sample.reply].

(** What the profiles table holds of the three users. *)
Definition sample_full_name (i : uuid) : option string :=
  if String.eqb i Sample.alice then Some "Alice A."%string
  else if String.eqb i Sample.bob then Some "Bob B."%string
  else None.

(** The titles of the items the session may see. *)
Definition sample_title (i : uuid) : option string :=
  if String.eqb i Sample.bike then Some "Bike, hardly used"%string
  else if String.eqb i Sample.sofa_wanted then Some "Looking for a sofa"%string
  else None.

(** bob's view of his two conversations with alice, the one about the sofa
    being the more recent. *)
Definition bobs_inbox : list Inbox.entry :=
  [Inbox.mkEntry Sample.about_sofa [] None (Some "Looking for a sofa"%string)
                 Sample.alice "Alice A."%string;
   Inbox.mkEntry Sample.about_bike [] (Some "Bike, hardly used"%string) None
                 Sample.alice "Alice A."%string].

(** ** The update policy of [conversations] *)

(** The migration enables row-level security on [conversations] and
    declares a policy FOR SELECT and one FOR INSERT; with none FOR UPDATE the
    store grants an update of no row, to nobody. *)
Definition conversations_update_policy (uid : uuid) (c : Conversations.row) : bool :=
  false.

(** ** The writes of the handlers, in any order *)

(** The refs a screen passes to the resolver: one item, as listing or as
    request, its id not the empty string. *)
Definition one_item_given (l r : option string) : Prop :=
  (exists L, l = Some L /\ L <> EmptyString /\ r = None)
  \/ (exists R, r = Some R /\ R <> EmptyString /\ l = None).

(** The stores that the write requests of [handleChat] and of
    [handleSendMessage] produce from the empty store, each request taken on
    its own: the insert of the resolver as a screen calls it (by a user, for
    another user and one item), the insert of a message, the update of
    last_message_at.  A handler awaits its requests one by one, and requests
    of different runs may fall in between; every such run is a sequence of
    these steps.  The lookups write nothing, and an insert is allowed here
    whatever a lookup found before. *)
Inductive handler_writes : database -> Prop :=
| writes_none : handler_writes empty_db
| writes_conversation create uid owner l r db :
    handler_writes db -> uid <> owner -> one_item_given l r ->
    handler_writes
      (fst (Supabase.insert_conversation create (Some uid) db uid owner
              (or_null l) (or_null r)))
| writes_message insert user db conv text :
    handler_writes db ->
    handler_writes (fst (Supabase.insert_message insert user db true conv user text))
| writes_last_message_at grant update user db conv date :
    handler_writes db ->
    handler_writes
      (fst (Supabase.update_conversations grant update user db
              (fun c => String.eqb (Conversations.id c) conv)
              (Chat.set_last_message_at date))).


(** alice has tapped "chat" on bob's bike twice, the second lookup
    answered before the first insert. *)
Definition tapped_twice : database :=
  mkDb [Sample.about_bike;
        Conversations.mk "c-2"%string Sample.alice Sample.bob (Some Sample.bike) None
                         101 101]
       [].

(** bob's answer has been sent and the update of last_message_at has
    reached the store. *)
Definition touched (grant : uuid -> Conversations.row -> bool) : database * Chat.outcome :=
  let '(_, db, out) :=
    Chat.handleSendMessage grant
      (Sample.request "m-2"%string 130) (Sample.request "-"%string 131) 131
      (Some (Conversations.id Sample.about_bike)) (Some Sample.bob)
      (Chat.mkState [Sample.hello] (Messages.content Sample.reply) false false)
      greeted in
  (db, out).

(** * Properties *)

(** The primary-key constraint on a store that is written out. *)
Ltac sample_pkey :=
  unfold conversations_pkey, messages_pkey; simpl;
  repeat constructor; simpl; intuition discriminate.

Section Basics.

Lemma NoDup_map_eq {A B : Type} (f : A -> B) (l : list A) (x y : A) :
  NoDup (map f l) -> In x l -> In y l -> f x = f y -> x = y.
Proof.
  induction l as [|a l IH]; simpl; intros Hnd Hx Hy Hf; [contradiction|].
  inversion Hnd as [|? ? Hnotin Hnd']; subst.
  destruct Hx as [->|Hx], Hy as [->|Hy]; auto.
  - exfalso. apply Hnotin. rewrite Hf. now apply in_map.
  - exfalso. apply Hnotin. rewrite <- Hf. now apply in_map.
Qed.

Lemma distinct_NoDup (keys : list uuid) :
  Supabase.distinct keys = true <-> NoDup keys.
Proof.
  induction keys as [|k keys IH]; simpl.
  - split; [constructor|reflexivity].
  - rewrite andb_true_iff, negb_true_iff, IH. split.
    + intros [Hk Hnd]. constructor; [|assumption].
      intros Hin.
      assert (existsb (String.eqb k) keys = true).
      { apply existsb_exists. exists k. split; [assumption|apply String.eqb_refl]. }
      congruence.
    + intros Hnd. inversion Hnd as [|? ? Hnotin Hnd']; subst.
      split; [|assumption].
      destruct (existsb _ _) eqn:E; [|reflexivity].
      apply existsb_exists in E. destruct E as [x [Hx Hkx]].
      apply String.eqb_eq in Hkx. subst. contradiction.
Qed.

(** An EXISTS over [conversations] keyed by the primary key looks at the
    one row that carries the key. *)
Lemma exists_by_pkey (db : database) (c : Conversations.row)
      (P : Conversations.row -> bool) (k : uuid) :
  conversations_pkey db -> In c (conversations db) -> k = Conversations.id c ->
  existsb (fun c' => String.eqb (Conversations.id c') k && P c') (conversations db)
  = P c.
Proof.
  intros Hpk Hin ->.
  destruct (P c) eqn:HP.
  - apply existsb_exists. exists c. split; [assumption|].
    now rewrite String.eqb_refl, HP.
  - destruct (existsb _ _) eqn:E; [|reflexivity].
    apply existsb_exists in E. destruct E as [c' [Hin' H]].
    apply andb_true_iff in H. destruct H as [Hid HP'].
    apply String.eqb_eq in Hid.
    assert (c' = c) by (eapply NoDup_map_eq; eauto).
    subst. congruence.
Qed.

Lemma messages_select_spec (db : database) (c : Conversations.row)
      (m : Messages.row) (uid : uuid) :
  conversations_pkey db -> In c (conversations db) ->
  Messages.conversation_id m = Conversations.id c ->
  (Policy.messages_select uid db m = true <-> participant uid c).
Proof.
  intros Hpk Hin Hc. unfold Policy.messages_select.
  rewrite (exists_by_pkey db c
             (fun c => String.eqb (Conversations.participant_1_id c) uid
                       || String.eqb (Conversations.participant_2_id c) uid)
             _ Hpk Hin Hc).
  unfold participant. rewrite orb_true_iff, !String.eqb_eq.
  split; intros [H|H]; auto.
Qed.

Lemma messages_update_using_spec (db : database) (c : Conversations.row)
      (m : Messages.row) (uid : uuid) :
  conversations_pkey db -> In c (conversations db) ->
  Messages.conversation_id m = Conversations.id c ->
  (Policy.messages_update_using uid db m = true
   <-> uid = Conversations.participant_2_id c).
Proof.
  intros Hpk Hin Hc. unfold Policy.messages_update_using.
  rewrite (exists_by_pkey db c
             (fun c => String.eqb (Conversations.participant_2_id c) uid)
             _ Hpk Hin Hc).
  rewrite String.eqb_eq. split; congruence.
Qed.

Lemma messages_update_check_spec (db : database) (c : Conversations.row)
      (m : Messages.row) (uid : uuid) :
  conversations_pkey db -> In c (conversations db) ->
  Messages.conversation_id m = Conversations.id c ->
  (Policy.messages_update_check uid db m = true
   <-> uid = Conversations.participant_2_id c).
Proof. exact (messages_update_using_spec db c m uid). Qed.

(** Whoever may update a message may also see it. *)
Lemma messages_update_using_select (db : database) (m : Messages.row) (uid : uuid) :
  Policy.messages_update_using uid db m = true ->
  Policy.messages_select uid db m = true.
Proof.
  unfold Policy.messages_update_using, Policy.messages_select.
  rewrite !existsb_exists. intros [c [Hin H]]. exists c. split; [assumption|].
  apply andb_true_iff in H. destruct H as [-> ->]. now rewrite orb_true_r.
Qed.

End Basics.

(** ** ORDER BY created_at DESC *)

Section OrderBy.
Import Supabase.

Lemma insert_desc_perm (m : Messages.row) (l : list Messages.row) :
  Permutation (insert_desc m l) (m :: l).
Proof.
  induction l as [|x l IH]; simpl; [reflexivity|].
  destruct (Z.leb _ _); [reflexivity|].
  rewrite IH. apply perm_swap.
Qed.

Lemma order_by_perm (l : list Messages.row) :
  Permutation (order_by_created_at_desc l) l.
Proof.
  induction l as [|m l IH]; simpl; [reflexivity|].
  rewrite insert_desc_perm. now apply perm_skip.
Qed.

Lemma insert_desc_sorted (m : Messages.row) (l : list Messages.row) :
  StronglySorted newer_first l -> StronglySorted newer_first (insert_desc m l).
Proof.
  induction 1 as [|x l Hs IH Hall]; simpl.
  - repeat constructor.
  - destruct (Z.leb (Messages.created_at x) (Messages.created_at m)) eqn:E.
    + apply Z.leb_le in E. constructor.
      * now constructor.
      * constructor; [exact E|].
        eapply Forall_impl; [|exact Hall].
        unfold newer_first. intros; lia.
    + apply Z.leb_gt in E. constructor; [assumption|].
      apply Forall_forall. intros y Hy.
      apply (Permutation_in _ (insert_desc_perm m l)) in Hy.
      destruct Hy as [<-|Hy].
      * unfold newer_first. lia.
      * rewrite Forall_forall in Hall. now apply Hall.
Qed.

Lemma order_by_sorted (l : list Messages.row) :
  StronglySorted newer_first (order_by_created_at_desc l).
Proof.
  induction l as [|m l IH]; simpl; [constructor|].
  now apply insert_desc_sorted.
Qed.

Lemma order_by_In (l : list Messages.row) (m : Messages.row) :
  In m (order_by_created_at_desc l) <-> In m l.
Proof.
  split; apply Permutation_in; [|symmetry]; apply order_by_perm.
Qed.

End OrderBy.

(** ** Reading messages *)

Section Reading.
Import Supabase.

Lemma messages_select_participant (db : database) (c : Conversations.row)
      (m : Messages.row) (uid : uuid) :
  In c (conversations db) -> participant uid c ->
  Messages.conversation_id m = Conversations.id c ->
  Policy.messages_select uid db m = true.
Proof.
  intros Hin Hp Hc. apply existsb_exists. exists c. split; [assumption|].
  rewrite Hc, String.eqb_refl. simpl.
  destruct Hp as [->| ->]; rewrite String.eqb_refl; auto using orb_true_r.
Qed.

(** C6: the select policy lets a caller see a message exactly when the
    caller is participant_1 or participant_2 of the conversation that owns
    it; whatever filters a caller who is no participant puts on a select,
    the answer holds no message of that conversation. *)
Theorem messages_select_iff_participant
        (db : database) (c : Conversations.row) (m : Messages.row) (uid : uuid) :
  conversations_pkey db -> In c (conversations db) ->
  Messages.conversation_id m = Conversations.id c ->
  (Policy.messages_select uid db m = true <-> participant uid c)
  /\ (~ participant uid c ->
      forall rt where_ data,
        select_messages rt (Some uid) db where_ = Data data ->
        forall m', In m' data ->
                   Messages.conversation_id m' <> Conversations.id c).
Proof.
  intros Hpk Hin Hc. split; [now apply messages_select_spec|].
  intros Hnot rt where_ data Hsel m' Hm' Hc'.
  unfold select_messages in Hsel.
  destruct (reachable rt); [|discriminate].
  injection Hsel as <-.
  apply (proj1 (order_by_In _ _)) in Hm'. apply filter_In in Hm'.
  destruct Hm' as [_ H]. apply andb_true_iff in H. destruct H as [H _].
  simpl in H. apply Hnot.
  now apply (messages_select_spec db c m' uid Hpk Hin Hc').
Qed.

Lemma messages_select_iff_participant_witness :
  conversations_pkey Sample.chat
  /\ In Sample.about_bike (conversations Sample.chat)
  /\ Messages.conversation_id Sample.reply = Conversations.id Sample.about_bike
  /\ (Policy.messages_select Sample.alice Sample.chat Sample.reply = true
      <-> participant Sample.alice Sample.about_bike).
Proof.
  assert (Hpk : conversations_pkey Sample.chat).
  { unfold conversations_pkey. simpl. repeat constructor. simpl. tauto. }
  assert (Hin : In Sample.about_bike (conversations Sample.chat)) by (simpl; auto).
  repeat split; try assumption;
    apply (messages_select_iff_participant
             Sample.chat Sample.about_bike Sample.reply Sample.alice Hpk Hin eq_refl).
Defined.

(** C7: for a participant of the conversation, [fetchMessages] lists all the
    messages of the conversation, newest first; three messages inserted at
    times t1 < t2 < t3 come back in the order [t3, t2, t1]. *)
Theorem fetchMessages_newest_first
        (rt : round_trip) (uid : uuid) (db : database) (c : Conversations.row)
        (st : Chat.state) :
  reachable rt = true -> In c (conversations db) -> participant uid c ->
  let of_conversation :=
    filter (fun m => String.eqb (Messages.conversation_id m) (Conversations.id c))
           (messages db) in
  let listed :=
    Chat.st_messages (fst (Chat.fetchMessages rt (Some uid) db (Conversations.id c) st)) in
  Permutation listed of_conversation
  /\ StronglySorted newer_first listed
  /\ (forall m1 m2 m3,
         of_conversation = [m1; m2; m3] ->
         Messages.created_at m1 < Messages.created_at m2 ->
         Messages.created_at m2 < Messages.created_at m3 ->
         listed = [m3; m2; m1]).
Proof.
  intros Hr Hin Hp of_conversation listed.
  assert (Hl : listed = order_by_created_at_desc of_conversation).
  { unfold listed, Chat.fetchMessages, select_messages. rewrite Hr. simpl.
    f_equal. apply filter_ext. intros m.
    destruct (String.eqb (Messages.conversation_id m) (Conversations.id c)) eqn:E.
    - apply String.eqb_eq in E.
      now rewrite (messages_select_participant db c m uid Hin Hp E).
    - apply andb_false_r. }
  rewrite Hl. split; [apply order_by_perm|]. split; [apply order_by_sorted|].
  intros m1 m2 m3 -> H12 H23. unfold order_by_created_at_desc. simpl.
  apply Z.leb_gt in H23 as E32.
  assert (E31 : Z.leb (Messages.created_at m3) (Messages.created_at m1) = false)
    by (apply Z.leb_gt; lia).
  apply Z.leb_gt in H12 as E21.
  rewrite E32. simpl. rewrite E31. simpl. now rewrite E21.
Qed.

Lemma fetchMessages_newest_first_witness :
  Chat.st_messages
    (fst (Chat.fetchMessages (Sample.request "-"%string 150) (Some Sample.bob)
            Sample.chat (Conversations.id Sample.about_bike)
            (Chat.mkState [] EmptyString true false)))
  = [Sample.later; Sample.reply; Sample.hello].
Proof.
  refine (proj2 (proj2
    (fetchMessages_newest_first
       (Sample.request "-"%string 150) Sample.bob Sample.chat Sample.about_bike
       (Chat.mkState [] EmptyString true false) eq_refl _ _))
    Sample.hello Sample.reply Sample.later eq_refl _ _).
  - simpl; auto.
  - right; reflexivity.
  - reflexivity.
  - reflexivity.
Defined.

End Reading.

(** ** Updating messages *)

Section Updating.
Import Supabase.

Variables (A : Type) (f : A -> bool).

Lemma existsb_none (g : A -> bool) (l : list A) :
  (forall x, In x l -> f x = false) ->
  existsb (fun x => f x && g x) l = false.
Proof.
  induction l as [|a l IH]; simpl; intros H; [reflexivity|].
  rewrite (H a) by auto. simpl. apply IH. auto.
Qed.

Lemma filter_none (l : list A) :
  (forall x, In x l -> f x = false) -> filter f l = [].
Proof.
  induction l as [|a l IH]; simpl; intros H; [reflexivity|].
  rewrite (H a) by auto. apply IH. auto.
Qed.

Lemma map_if_none (h : A -> A) (l : list A) :
  (forall x, In x l -> f x = false) ->
  map (fun x => if f x then h x else x) l = l.
Proof.
  induction l as [|a l IH]; simpl; intros H; [reflexivity|].
  rewrite (H a) by auto. f_equal. apply IH. auto.
Qed.

(** When [f] singles out one element of the list. *)
Lemma filter_only (m : A) (l : list A) :
  NoDup l -> In m l -> (forall x, In x l -> (f x = true <-> x = m)) ->
  filter f l = [m].
Proof.
  induction l as [|a l IH]; simpl; intros Hnd Hin Hf; [contradiction|].
  inversion Hnd as [|? ? Hnotin Hnd']; subst.
  destruct Hin as [->|Hin].
  - rewrite (proj2 (Hf m (or_introl eq_refl)) eq_refl). f_equal.
    apply filter_none. intros x Hx.
    destruct (f x) eqn:E; [|reflexivity].
    apply (Hf x (or_intror Hx)) in E. subst. contradiction.
  - destruct (f a) eqn:E.
    + apply (Hf a (or_introl eq_refl)) in E. subst. contradiction.
    + apply IH; auto.
Qed.

End Updating.

Section UpdatingOneMessage.
Import Supabase.

Variables (rt : round_trip) (db : database)
          (c : Conversations.row) (m : Messages.row).
Hypothesis Hreach : reachable rt = true.
Hypothesis Hcpk : conversations_pkey db.
Hypothesis Hmpk : messages_pkey db.
Hypothesis Hc : In c (conversations db).
Hypothesis Hm : In m (messages db).
Hypothesis Hown : Messages.conversation_id m = Conversations.id c.

Lemma update_targets_one (uid : uuid) (x : Messages.row) :
  In x (messages db) ->
  (update_targets (Some uid) db (by_id (Messages.id m)) x = true
   <-> x = m /\ uid = Conversations.participant_2_id c).
Proof.
  intros Hx. unfold update_targets, by_id. simpl.
  rewrite andb_true_iff, String.eqb_eq. split.
  - intros [Hid Hu].
    assert (x = m) by (eapply NoDup_map_eq; eauto). subst x.
    split; [reflexivity|].
    now apply (messages_update_using_spec db c m uid).
  - intros [-> ->]. split; [reflexivity|].
    now apply (messages_update_using_spec db c m).
Qed.

Lemma messages_NoDup : NoDup (messages db).
Proof. eapply NoDup_map_inv. exact Hmpk. Qed.

(** A caller other than participant_2 updates nothing. *)
Lemma update_one_denied (uid : uuid) (set_ : Messages.row -> Messages.row) :
  uid <> Conversations.participant_2_id c ->
  update_messages rt (Some uid) db (by_id (Messages.id m)) set_ = (db, Data []).
Proof.
  intros Hne.
  assert (Hnone : forall x, In x (messages db) ->
                            update_targets (Some uid) db (by_id (Messages.id m)) x = false).
  { intros x Hx. destruct (update_targets _ _ _ x) eqn:E; [|reflexivity].
    apply (update_targets_one uid x Hx) in E. destruct E; contradiction. }
  unfold update_messages. rewrite Hreach. simpl.
  rewrite existsb_none by assumption.
  rewrite map_if_none by assumption.
  rewrite filter_none by assumption.
  rewrite (proj2 (distinct_NoDup _) Hmpk). simpl.
  now destruct db.
Qed.

(** participant_2 replaces the row by whatever [set_] makes of it, as
    long as the result stays in a conversation whose participant_2 it
    is. *)
Lemma update_one_granted (set_ : Messages.row -> Messages.row) :
  Messages.id (set_ m) = Messages.id m ->
  Policy.messages_update_check (Conversations.participant_2_id c) db (set_ m) = true ->
  exists db',
    update_messages rt (Some (Conversations.participant_2_id c)) db
    (by_id (Messages.id m)) set_
    = (db', Data [set_ m])
    /\ In (set_ m) (messages db')
    /\ conversations db' = conversations db.
Proof.
  intros Hkey Hcheck.
  set (uid := Conversations.participant_2_id c) in *.
  assert (Hone : forall x, In x (messages db) ->
                           (update_targets (Some uid) db (by_id (Messages.id m)) x = true <-> x = m)).
  { intros x Hx. rewrite (update_targets_one uid x Hx). tauto. }
  unfold update_messages. rewrite Hreach. simpl.
  assert (Hex : existsb
                  (fun x => update_targets (Some uid) db (by_id (Messages.id m)) x
                            && negb (Policy.messages_update_check uid db (set_ x)))
                  (messages db) = false).
  { destruct (existsb _ _) eqn:E; [|reflexivity].
    apply existsb_exists in E. destruct E as [x [Hx H]].
    apply andb_true_iff in H. destruct H as [Ht Hn].
    apply (Hone x Hx) in Ht. subst x. now rewrite Hcheck in Hn. }
  rewrite Hex.
  assert (Hkeys : map Messages.id
                    (map (fun x => if update_targets (Some uid) db
                                        (by_id (Messages.id m)) x
                                   then set_ x else x) (messages db))
                  = map Messages.id (messages db)).
  { rewrite map_map. apply map_ext_in. intros x Hx.
    destruct (update_targets _ _ _ x) eqn:E; [|reflexivity].
    apply (Hone x Hx) in E. now subst. }
  rewrite Hkeys, (proj2 (distinct_NoDup _) Hmpk). simpl.
  rewrite (filter_only _ _ m (messages db) messages_NoDup Hm Hone).
  eexists. split; [reflexivity|]. split; [|reflexivity].
  simpl. apply in_map_iff. exists m. split; [|assumption].
  now rewrite (proj2 (Hone m Hm) eq_refl).
Qed.

End UpdatingOneMessage.

(** ** Who may mark a message read, and what else the update policy lets through *)

Section ReadMarking.
Import Supabase.

(** C5: in a conversation with participant_1 = U1 and participant_2 = U2
    the update policy admits a caller exactly when the caller is U2.
    [mark_read] by any other caller changes nothing; in particular U1
    cannot mark any message of the conversation read, whoever sent it,
    while U2 can. *)
Theorem mark_read_only_participant_2
        (rt : round_trip) (date : timestamptz) (db : database)
        (c : Conversations.row) (m : Messages.row) (reader : uuid) :
  reachable rt = true ->
  conversations_pkey db -> messages_pkey db ->
  In c (conversations db) -> In m (messages db) ->
  Messages.conversation_id m = Conversations.id c ->
  (Policy.messages_update_using reader db m = true
   <-> reader = Conversations.participant_2_id c)
  /\ (reader <> Conversations.participant_2_id c ->
      mark_read rt date (Some reader) db (Messages.id m) = (db, Data []))
  /\ (Conversations.participant_1_id c <> Conversations.participant_2_id c ->
      mark_read rt date (Some (Conversations.participant_1_id c)) db (Messages.id m)
      = (db, Data []))
  /\ (exists db',
         mark_read rt date (Some (Conversations.participant_2_id c)) db (Messages.id m)
         = (db', Data [set_read_at date m])
         /\ In (set_read_at date m) (messages db')).
Proof.
  intros Hr Hcpk Hmpk Hc Hm Hown.
  split; [now apply messages_update_using_spec|].
  split; [|split].
  - intros Hne. unfold mark_read.
    exact (update_one_denied rt db c m Hr Hcpk Hmpk Hc Hm Hown reader _ Hne).
  - intros Hne. unfold mark_read.
    exact (update_one_denied rt db c m Hr Hcpk Hmpk Hc Hm Hown _ _ Hne).
  - destruct (update_one_granted rt db c m Hr Hcpk Hmpk Hc Hm Hown (set_read_at date))
      as [db' [Hup [Hin _]]].
    + reflexivity.
    + now apply (messages_update_check_spec db c).
    + exists db'. split; assumption.
Qed.

Lemma mark_read_only_participant_2_witness :
  mark_read (Sample.request "-"%string 150) 150 (Some Sample.alice) Sample.chat
            (Messages.id Sample.reply)
  = (Sample.chat, Data []).
Proof.
  refine (proj1 (proj2 (proj2
    (mark_read_only_participant_2
       (Sample.request "-"%string 150) 150 Sample.chat Sample.about_bike
       Sample.reply Sample.alice eq_refl _ _ _ _ eq_refl))) _).
  - sample_pkey.
  - sample_pkey.
  - simpl; auto.
  - simpl; auto.
  - discriminate.
Defined.

(** C10: the update policy looks at nothing but whether the caller is
    participant_2 of the conversation that owns the message, before and
    after the update; neither the message nor the columns changed enter it.
    Such a caller may replace any message of the conversation, its own
    included, by a row with any sender_id, content, created_at and read_at
    (and may move it to any conversation whose participant_2 it also is);
    every other caller changes nothing. *)
Theorem messages_update_policy_membership_only
        (rt : round_trip) (db : database) (c c' : Conversations.row)
        (m : Messages.row) (uid : uuid)
        (sender : uuid) (content : string) (created_at : timestamptz)
        (read_at : option timestamptz) :
  reachable rt = true ->
  conversations_pkey db -> messages_pkey db ->
  In c (conversations db) -> In c' (conversations db) -> In m (messages db) ->
  Messages.conversation_id m = Conversations.id c ->
  let m' := Messages.mk (Messages.id m) (Conversations.id c')
                        sender content created_at read_at in
  let statement :=
    update_messages rt (Some uid) db
      (by_id (Messages.id m)) (fun _ => m') in
  (forall new,
      Messages.conversation_id new = Conversations.id c' ->
      (Policy.messages_update_using uid db m && Policy.messages_update_check uid db new
       = true
       <-> uid = Conversations.participant_2_id c
           /\ uid = Conversations.participant_2_id c'))
  /\ (uid = Conversations.participant_2_id c ->
      uid = Conversations.participant_2_id c' ->
      exists db', statement = (db', Data [m']) /\ In m' (messages db'))
  /\ (uid <> Conversations.participant_2_id c -> statement = (db, Data [])).
Proof.
  intros Hr Hcpk Hmpk Hc Hc' Hm Hown m' statement.
  split; [|split].
  - intros new Hnew. rewrite andb_true_iff.
    rewrite (messages_update_using_spec db c m uid Hcpk Hc Hown).
    rewrite (messages_update_check_spec db c' new uid Hcpk Hc' Hnew).
    tauto.
  - intros -> H2.
    destruct (update_one_granted rt db c m Hr Hcpk Hmpk Hc Hm Hown (fun _ => m'))
      as [db' [Hup [Hin _]]].
    + reflexivity.
    + now apply (messages_update_check_spec db c' m' _ Hcpk Hc' eq_refl).
    + exists db'. split; assumption.
  - intros Hne.
    exact (update_one_denied rt db c m Hr Hcpk Hmpk Hc Hm Hown uid _ Hne).
Qed.

(** bob, participant_2, marks his own reply read and rewrites what alice
    wrote. *)
Lemma messages_update_policy_membership_only_witness :
  (exists db',
      update_messages (Sample.request "-"%string 150) (Some Sample.bob) Sample.chat
        (by_id (Messages.id Sample.reply))
        (fun _ => set_read_at 150 Sample.reply)
      = (db', Data [set_read_at 150 Sample.reply])
      /\ In (set_read_at 150 Sample.reply) (messages db'))
  /\ (exists db',
         update_messages (Sample.request "-"%string 150) (Some Sample.bob) Sample.chat
           (by_id (Messages.id Sample.hello))
           (fun _ => Sample.rewritten)
         = (db', Data [Sample.rewritten])
         /\ In Sample.rewritten (messages db')).
Proof.
  assert (Hc : conversations_pkey Sample.chat) by sample_pkey.
  assert (Hm : messages_pkey Sample.chat) by sample_pkey.
  assert (Hin : In Sample.about_bike (conversations Sample.chat)) by (simpl; auto).
  split.
  - refine (proj1 (proj2
      (messages_update_policy_membership_only
         (Sample.request "-"%string 150) Sample.chat Sample.about_bike Sample.about_bike
         Sample.reply Sample.bob Sample.bob (Messages.content Sample.reply) 130 (Some 150)
         eq_refl Hc Hm Hin Hin _ eq_refl)) eq_refl eq_refl).
    simpl; auto.
  - refine (proj1 (proj2
      (messages_update_policy_membership_only
         (Sample.request "-"%string 150) Sample.chat Sample.about_bike Sample.about_bike
         Sample.hello Sample.bob Sample.alice (Messages.content Sample.rewritten) 120 None
         eq_refl Hc Hm Hin Hin _ eq_refl)) eq_refl eq_refl).
    simpl; auto.
Defined.

End ReadMarking.

(** ** Sending: what the insert policy checks *)

Section InsertPolicy.
Import Supabase.

(** C2 as stated fails: mallory is no participant of the conversation about
    the bike, yet her insert of a message into it, with herself as
    sender_id, passes the policy; the store it leaves is reachable and holds
    a message whose sender is not a participant of the owning
    conversation. *)
Lemma outsider_insert_admitted :
  ~ participant Sample.mallory Sample.about_bike
  /\ insert_message (Sample.request (Messages.id Sample.intrusion) 150)
                    (Some Sample.mallory) Sample.one_conversation false
                    (Conversations.id Sample.about_bike) (Some Sample.mallory)
                    (Messages.content Sample.intrusion)
     = (Sample.intruded, Data [])
  /\ reachable_state Sample.intruded
  /\ ~ senders_are_participants Sample.intruded.
Proof.
  split; [intros [H|H]; discriminate H|].
  split; [reflexivity|].
  split.
  - change Sample.intruded with
      (fst (insert_message (Sample.request (Messages.id Sample.intrusion) 150)
              (Some Sample.mallory) Sample.one_conversation false
              (Conversations.id Sample.about_bike) (Some Sample.mallory)
              (Messages.content Sample.intrusion))).
    apply reach_insert_message.
    change Sample.one_conversation with
      (fst (insert_conversation (Sample.request (Conversations.id Sample.about_bike) 100)
              (Some Sample.alice) empty_db Sample.alice Sample.bob
              (Some Sample.bike) None)).
    apply reach_insert_conversation. apply reach_empty.
  - intros H.
    destruct (H Sample.intrusion Sample.about_bike) as [E|E];
      simpl; auto; discriminate E.
Qed.

(** C2 (as amended): a message insert is rejected with Forbidden whenever
    the caller is not the row's sender_id, and that is all the insert
    policy checks: with the caller as sender_id the insert into an existing
    conversation is carried out, participant or not.  Only an insert that
    also returns the row, as the chat screen's send does, is rejected for a
    caller who is no participant, by the select policy. *)
Theorem message_insert_checks_sender_only
        (rt : round_trip) (db : database) (uid : uuid) (returning : bool)
        (conv : uuid) (sender : option uuid) (content : string) :
  reachable rt = true ->
  (forall m, Policy.messages_insert_check uid m = true <-> uid = Messages.sender_id m)
  /\ (sender <> Some uid ->
      insert_message rt (Some uid) db returning conv sender content
      = (db, Error Forbidden))
  /\ (has_conversation db conv = true ->
      has_message db (gen_random_uuid rt) = false ->
      insert_message rt (Some uid) db false conv (Some uid) content
      = (mkDb (conversations db)
              (messages db
               ++ [Messages.mk (gen_random_uuid rt) conv uid content (now rt) None]),
         Data []))
  /\ (forall c,
         conversations_pkey db -> In c (conversations db) ->
         conv = Conversations.id c -> ~ participant uid c ->
         insert_message rt (Some uid) db true conv (Some uid) content
         = (db, Error Forbidden)).
Proof.
  intros Hr. split; [|split; [|split]].
  - intros m. unfold Policy.messages_insert_check. apply String.eqb_eq.
  - intros Hne. unfold insert_message. rewrite Hr. simpl.
    destruct sender as [x|]; [|reflexivity].
    unfold Policy.messages_insert_check. simpl.
    destruct (String.eqb uid x) eqn:E; [|reflexivity].
    apply String.eqb_eq in E. subst. contradiction.
  - intros Hconv Hfresh. unfold insert_message. rewrite Hr. simpl.
    unfold Policy.messages_insert_check. simpl.
    now rewrite String.eqb_refl, Hfresh, Hconv.
  - intros c Hpk Hc -> Hnot. unfold insert_message. rewrite Hr. simpl.
    unfold Policy.messages_insert_check. simpl. rewrite String.eqb_refl. simpl.
    destruct (Policy.messages_select uid db _) eqn:E; [|reflexivity].
    match type of E with
    | Policy.messages_select _ _ ?new = _ =>
        apply (messages_select_spec db c new uid Hpk Hc eq_refl) in E
    end.
    contradiction.
Qed.

Lemma message_insert_checks_sender_only_witness :
  insert_message (Sample.request "m-9"%string 150) (Some Sample.mallory)
                 Sample.one_conversation true (Conversations.id Sample.about_bike)
                 (Some Sample.alice) "hi"%string
  = (Sample.one_conversation, Error Forbidden).
Proof.
  refine (proj1 (proj2
    (message_insert_checks_sender_only
       (Sample.request "m-9"%string 150) Sample.one_conversation Sample.mallory true
       (Conversations.id Sample.about_bike) (Some Sample.alice) "hi"%string eq_refl)) _).
  discriminate.
Defined.

End InsertPolicy.

(** ** Sending from the chat screen *)

Section Sending.
Import Supabase Chat.

Variable conversations_update_using : uuid -> Conversations.row -> bool.

(** The insert either leaves the store as it was and reports an error, or
    appends the one new row and returns it. *)
Lemma insert_message_returning_cases
      (rt : round_trip) (s : session) (db : database) (conv : uuid)
      (sender : option uuid) (content : string) :
  (exists e, insert_message rt s db true conv sender content = (db, Error e))
  \/ (exists uid,
         sender = Some uid /\
         let new := Messages.mk (gen_random_uuid rt) conv uid content (now rt) None in
         insert_message rt s db true conv sender content
         = (mkDb (conversations db) (messages db ++ [new]), Data [new])).
Proof.
  unfold insert_message.
  destruct (reachable rt); simpl; [|left; eauto].
  destruct sender as [uid|]; [|left; eauto].
  destruct (negb _); [left; eauto|].
  destruct (has_message _ _); [left; eauto|].
  destruct (has_conversation _ _); simpl; [|left; eauto].
  right. exists uid. split; reflexivity.
Qed.

Lemma insert_message_returning_ok
      (rt : round_trip) (db : database) (c : Conversations.row)
      (uid : uuid) (content : string) :
  reachable rt = true -> In c (conversations db) -> participant uid c ->
  has_message db (gen_random_uuid rt) = false ->
  let new := Messages.mk (gen_random_uuid rt) (Conversations.id c) uid content
                         (now rt) None in
  insert_message rt (Some uid) db true (Conversations.id c) (Some uid) content
  = (mkDb (conversations db) (messages db ++ [new]), Data [new]).
Proof.
  intros Hr Hc Hp Hfresh new.
  pose proof (messages_select_participant db c new uid Hc Hp eq_refl) as Hsel.
  unfold new in *. clear new.
  unfold insert_message. rewrite Hr. simpl.
  unfold Policy.messages_insert_check. simpl. rewrite String.eqb_refl. simpl.
  rewrite Hsel. simpl. rewrite Hfresh.
  assert (Hhas : has_conversation db (Conversations.id c) = true).
  { apply existsb_exists. exists c. split; [assumption|apply String.eqb_refl]. }
  now rewrite Hhas.
Qed.

(** The two requests of [handleSendMessage], whatever the store grants the
    second: the send first inserts one message row, with read_at null and
    created_at the store's [now()], and only then issues the update of the
    conversation's last_message_at.  An insert that fails is caught as the
    error of the send and nothing is written.  Once the insert has succeeded
    the send succeeds: the message stays in the store whether the second
    request reaches the store, is granted, or neither. *)
Theorem handleSendMessage_insert_then_update
        (insert update : round_trip) (date : timestamptz) (conv : string)
        (user : session) (st : state) (db : database) :
  String.eqb (trim (messageText st)) EmptyString = false ->
  conv <> EmptyString ->
  let text := messageText st in
  let send :=
    handleSendMessage conversations_update_using insert update date
                      (Some conv) user st db in
  let inserted := insert_message insert user db true conv user text in
  (forall uid c,
      user = Some uid -> reachable insert = true ->
      In c (conversations db) -> Conversations.id c = conv -> participant uid c ->
      has_message db (gen_random_uuid insert) = false ->
      single (snd inserted)
      = Data (Messages.mk (gen_random_uuid insert) conv uid text (now insert) None))
  /\ (forall error,
         single (snd inserted) = Error error ->
         send = (mkState (st_messages st) text (loading st) false, db, Caught error))
  /\ (forall data,
         single (snd inserted) = Data data ->
         exists db2,
           send = (mkState (data :: st_messages st) EmptyString (loading st) false,
                   db2, Sent data)
           /\ Messages.read_at data = None
           /\ Messages.created_at data = now insert
           /\ Messages.conversation_id data = conv
           /\ Messages.content data = text
           /\ messages db2 = messages db ++ [data]
           /\ db2 = fst (update_conversations conversations_update_using update user
                           (mkDb (conversations db) (messages db ++ [data]))
                           (fun c => String.eqb (Conversations.id c) conv)
                           (set_last_message_at date))
           /\ (reachable update = false -> conversations db2 = conversations db)
           /\ (reachable update = true ->
               forall c, In c (conversations db) -> Conversations.id c = conv ->
                         Policy.authenticated conversations_update_using user c = true ->
                         In (set_last_message_at date c) (conversations db2))).
Proof.
  intros Hblank Hconv. cbv zeta.
  assert (Htruthy : truthy (Some conv) = true).
  { simpl. apply negb_true_iff. now apply String.eqb_neq. }
  split; [|split].
  - intros uid c -> Hr Hc <- Hp Hfresh.
    now rewrite (insert_message_returning_ok insert db c uid _ Hr Hc Hp Hfresh).
  - intros error Herr. unfold handleSendMessage.
    rewrite Hblank, Htruthy. cbn [orb negb].
    destruct (insert_message_returning_cases insert user db conv user (messageText st))
      as [[e He]|[uid [_ He]]]; rewrite He in Herr |- *;
      simpl in Herr |- *; [|discriminate].
    now injection Herr as ->.
  - intros data Hdata. unfold handleSendMessage.
    rewrite Hblank, Htruthy. cbn [orb negb].
    destruct (insert_message_returning_cases insert user db conv user (messageText st))
      as [[e He]|[uid [_ He]]]; rewrite He in Hdata |- *;
      simpl in Hdata |- *; [discriminate|].
    injection Hdata as <-.
    unfold update_conversations.
    destruct (reachable update); simpl.
    + eexists. split; [reflexivity|]. repeat (split; [reflexivity|]).
      split; [intros H; discriminate H|].
      intros _ c Hc Hid Hgrant. apply in_map_iff. exists c.
      split; [|assumption].
      apply String.eqb_eq in Hid. now rewrite Hid, Hgrant.
    + eexists. split; [reflexivity|]. repeat (split; [reflexivity|]).
      intros H; discriminate H.
Qed.

End Sending.

(** bob answers alice; the request that should move last_message_at never
    reaches the store, and the message is sent all the same. *)
Lemma handleSendMessage_insert_then_update_witness :
  exists db2,
    Chat.handleSendMessage Policy.conversations_select
      (Sample.request "m-2"%string 130) (mkRt "-"%string 131 false) 131
      (Some (Conversations.id Sample.about_bike)) (Some Sample.bob)
      (Chat.mkState [] (Messages.content Sample.reply) false false)
      Sample.one_conversation
    = (Chat.mkState [Sample.reply] EmptyString false false, db2, Chat.Sent Sample.reply)
    /\ messages db2 = [Sample.reply]
    /\ conversations db2 = [Sample.about_bike].
Proof.
  destruct (proj2 (proj2
    (handleSendMessage_insert_then_update Policy.conversations_select
       (Sample.request "m-2"%string 130) (mkRt "-"%string 131 false) 131
       (Conversations.id Sample.about_bike) (Some Sample.bob)
       (Chat.mkState [] (Messages.content Sample.reply) false false)
       Sample.one_conversation eq_refl ltac:(discriminate)))
    Sample.reply eq_refl)
    as [db2 [Hsend [_ [_ [_ [_ [Hm [_ [Hc _]]]]]]]]].
  exists db2. split; [exact Hsend|]. split; [exact Hm|]. exact (Hc eq_refl).
Defined.

(** ** The conversation resolver *)

Section Resolver.
Import Supabase.

(** The lookup keeps to the order of the pair it is given. *)
Lemma lookup_filter_pair (u o : string) (l r : option string) (c : Conversations.row) :
  lookup_filter u o l r c = true ->
  Conversations.participant_1_id c = u /\ Conversations.participant_2_id c = o.
Proof.
  unfold lookup_filter. cbv zeta.
  destruct (truthy l), (truthy r);
    rewrite !andb_true_iff, !String.eqb_eq; tauto.
Qed.

(** A ref that is given narrows the lookup to the rows that carry it. *)
Lemma lookup_filter_listing (u o : string) (l r : option string) (c : Conversations.row) :
  truthy l = true -> lookup_filter u o l r c = true ->
  Conversations.listing_id c = l.
Proof.
  unfold lookup_filter. cbv zeta. intros Hl. rewrite Hl.
  assert (Hq : eq_col (Conversations.listing_id c) l = true ->
               Conversations.listing_id c = l).
  { unfold eq_col. destruct (Conversations.listing_id c), l; try discriminate.
    rewrite String.eqb_eq. now intros ->. }
  destruct (truthy r); rewrite !andb_true_iff; tauto.
Qed.

Lemma eq_col_or_null (v : option string) :
  truthy v = true -> eq_col (or_null v) v = true.
Proof.
  intros H. unfold or_null. rewrite H.
  destruct v; [simpl; apply String.eqb_refl|discriminate].
Qed.

(** The row the resolver inserts is one its own lookup selects. *)
Lemma lookup_filter_new (u o : string) (l r : option string)
      (i : uuid) (t t' : timestamptz) :
  lookup_filter u o l r (Conversations.mk i u o (or_null l) (or_null r) t t') = true.
Proof.
  unfold lookup_filter. simpl. rewrite !String.eqb_refl. simpl.
  destruct (truthy l) eqn:El, (truthy r) eqn:Er; simpl;
    rewrite ?eq_col_or_null by assumption; reflexivity.
Qed.

Lemma has_conversation_false (db : database) (i : uuid) :
  has_conversation db i = false <-> ~ In i (map Conversations.id (conversations db)).
Proof.
  unfold has_conversation. split.
  - intros H Hin. apply in_map_iff in Hin. destruct Hin as [c [<- Hc]].
    assert (existsb (fun c0 => String.eqb (Conversations.id c0) (Conversations.id c))
                    (conversations db) = true).
    { apply existsb_exists. exists c. split; [assumption|apply String.eqb_refl]. }
    congruence.
  - intros H. destruct (existsb _ _) eqn:E; [|reflexivity].
    apply existsb_exists in E. destruct E as [c [Hc Hid]].
    apply String.eqb_eq in Hid. exfalso. apply H. rewrite <- Hid. now apply in_map.
Qed.

(** What a call that returns an id has done: the id is that of a row of
    the resulting store which the lookup selects; rows are only added; the
    primary key is kept. *)
Lemma getOrCreateConversation_returns
      (lookup create : round_trip) (s : session) (db db' : database)
      (u o : string) (l r : option string) (i : uuid) :
  getOrCreateConversation lookup create s db u o l r = (db', Data i) ->
  incl (conversations db) (conversations db')
  /\ (conversations_pkey db -> conversations_pkey db')
  /\ exists c, In c (conversations db') /\ Conversations.id c = i
               /\ lookup_filter u o l r c = true.
Proof.
  unfold getOrCreateConversation, select_conversations.
  destruct (reachable lookup); simpl; [|discriminate].
  destruct (filter _ (conversations db)) as [|a [|b rest]] eqn:Ef; simpl;
    [| |discriminate].
  - unfold insert_conversation.
    destruct (reachable create); simpl; [|discriminate].
    destruct (negb _); simpl; [discriminate|].
    destruct (has_conversation db (gen_random_uuid create)) eqn:Eh; simpl;
      [discriminate|].
    intros H. injection H as <- <-. simpl.
    split; [apply incl_appl, incl_refl|]. split.
    + unfold conversations_pkey. simpl. intros Hpk.
      rewrite map_app. simpl.
      apply NoDup_app_remove_l with (l := []). simpl.
      apply Permutation_NoDup with (l := gen_random_uuid create
                                            :: map Conversations.id (conversations db)).
      * apply Permutation_cons_append.
      * constructor; [|assumption]. now apply has_conversation_false.
    + eexists. split; [apply in_or_app; right; left; reflexivity|].
      split; [reflexivity|]. apply lookup_filter_new.
  - intros H. injection H as <- <-.
    split; [apply incl_refl|]. split; [auto|].
    exists a. assert (Ha : In a (filter
               (fun c => Policy.authenticated Policy.conversations_select s c
                         && lookup_filter u o l r c) (conversations db)))
      by (rewrite Ef; left; reflexivity).
    apply filter_In in Ha. destruct Ha as [Hin Ha].
    apply andb_true_iff in Ha. tauto.
Qed.

(** A call whose lookup selects nothing inserts the row and returns its
    id, provided the caller is one of the pair and the uuid is new. *)
Lemma getOrCreateConversation_creates
      (lookup create : round_trip) (uid : uuid) (db : database)
      (u o : string) (l r : option string) :
  reachable lookup = true -> reachable create = true ->
  uid = u \/ uid = o ->
  (forall c, In c (conversations db) -> lookup_filter u o l r c = false) ->
  has_conversation db (gen_random_uuid create) = false ->
  getOrCreateConversation lookup create (Some uid) db u o l r
  = (mkDb (conversations db
           ++ [Conversations.mk (gen_random_uuid create) u o (or_null l) (or_null r)
                                (now create) (now create)])
          (messages db),
     Data (gen_random_uuid create)).
Proof.
  intros Hl Hc Hu Hnone Hfresh.
  unfold getOrCreateConversation, select_conversations. rewrite Hl.
  rewrite filter_none.
  2:{ intros c Hin. rewrite (Hnone c Hin). apply andb_false_r. }
  simpl. unfold insert_conversation. rewrite Hc. simpl.
  unfold Policy.conversations_insert_check, Policy.conversations_select. simpl.
  assert (Hp : String.eqb uid u || String.eqb uid o = true).
  { destruct Hu as [->| ->]; rewrite String.eqb_refl; auto using orb_true_r. }
  rewrite Hp. simpl. now rewrite Hfresh.
Qed.

(** A call whose lookup selects one row returns that row's id and writes
    nothing. *)
Lemma getOrCreateConversation_finds
      (lookup create : round_trip) (s : session) (db : database)
      (u o : string) (l r : option string) (c : Conversations.row) :
  reachable lookup = true ->
  filter (fun c => Policy.authenticated Policy.conversations_select s c
                   && lookup_filter u o l r c) (conversations db) = [c] ->
  getOrCreateConversation lookup create s db u o l r = (db, Data (Conversations.id c)).
Proof.
  intros Hl Hf. unfold getOrCreateConversation, select_conversations.
  now rewrite Hl, Hf.
Qed.

End Resolver.

Section ResolverPairs.
Import Supabase.

Lemma has_conversation_app (db : database) (new : Conversations.row) (i : uuid) :
  has_conversation db i = false -> Conversations.id new <> i ->
  has_conversation (mkDb (conversations db ++ [new]) (messages db)) i = false.
Proof.
  unfold has_conversation. simpl. intros H Hne.
  rewrite existsb_app, H. simpl.
  apply orb_false_iff. split; [now apply String.eqb_neq|reflexivity].
Qed.

(** C4: the lookup selects only rows whose participant_1 and participant_2
    are the two ids in the order given, so never the row of the swapped
    pair.  For two different users A and B the calls for (A, B) and for
    (B, A), with the same refs, never return the same id; from a store
    without a row for either order each call creates a row of its own. *)
Theorem getOrCreateConversation_not_symmetric
        (A B : string) (l r : option string) :
  A <> B ->
  (forall c, lookup_filter A B l r c = true ->
             Conversations.participant_1_id c = A
             /\ Conversations.participant_2_id c = B
             /\ lookup_filter B A l r c = false)
  /\ (forall lookup1 create1 lookup2 create2 s1 s2 db db1 db2 i1 i2,
         conversations_pkey db ->
         getOrCreateConversation lookup1 create1 s1 db A B l r = (db1, Data i1) ->
         getOrCreateConversation lookup2 create2 s2 db1 B A l r = (db2, Data i2) ->
         i1 <> i2)
  /\ (forall lookup1 create1 lookup2 create2 db,
         reachable lookup1 = true -> reachable create1 = true ->
         reachable lookup2 = true -> reachable create2 = true ->
         (forall c, In c (conversations db) ->
                    lookup_filter A B l r c = false /\ lookup_filter B A l r c = false) ->
         has_conversation db (gen_random_uuid create1) = false ->
         has_conversation db (gen_random_uuid create2) = false ->
         gen_random_uuid create1 <> gen_random_uuid create2 ->
         exists db1 db2,
           getOrCreateConversation lookup1 create1 (Some A) db A B l r
           = (db1, Data (gen_random_uuid create1))
           /\ getOrCreateConversation lookup2 create2 (Some B) db1 B A l r
              = (db2, Data (gen_random_uuid create2))).
Proof.
  intros Hne.
  assert (Hswap : forall c, lookup_filter A B l r c = true ->
                            lookup_filter B A l r c = false).
  { intros c H. destruct (lookup_filter B A l r c) eqn:E; [|reflexivity].
    apply lookup_filter_pair in H. apply lookup_filter_pair in E.
    destruct H as [H _], E as [E _]. congruence. }
  split; [|split].
  - intros c H. destruct (lookup_filter_pair _ _ _ _ _ H). auto.
  - intros lookup1 create1 lookup2 create2 s1 s2 db db1 db2 i1 i2 Hpk H1 H2 Heq.
    apply getOrCreateConversation_returns in H1.
    destruct H1 as [_ [Hpk1 [c1 [Hc1 [Hi1 Hf1]]]]].
    apply getOrCreateConversation_returns in H2.
    destruct H2 as [Hincl [Hpk2 [c2 [Hc2 [Hi2 Hf2]]]]].
    assert (c1 = c2).
    { apply (NoDup_map_eq Conversations.id (conversations db2)); auto.
      - apply Hpk2, Hpk1, Hpk.
      - congruence. }
    subst c2. rewrite (Hswap c1 Hf1) in Hf2. discriminate.
  - intros lookup1 create1 lookup2 create2 db Hl1 Hc1 Hl2 Hc2 Hnone Hf1 Hf2 Hg.
    eexists. eexists. split.
    + apply getOrCreateConversation_creates; auto.
      intros c Hc. now apply Hnone.
    + apply getOrCreateConversation_creates; auto.
      * simpl. intros c Hc. apply in_app_or in Hc. destruct Hc as [Hc|[<-|[]]].
        -- now apply Hnone.
        -- apply Hswap, lookup_filter_new.
      * now apply has_conversation_app.
Qed.

(** alice opens the chat about bob's bike, bob opens one with alice for
    the same bike: two conversations. *)
Lemma getOrCreateConversation_not_symmetric_witness :
  exists db1 db2,
    getOrCreateConversation (Sample.request "-"%string 100) (Sample.request "c-1"%string 100)
      (Some Sample.alice) empty_db Sample.alice Sample.bob (Some Sample.bike) None
    = (db1, Data "c-1"%string)
    /\ getOrCreateConversation (Sample.request "-"%string 105) (Sample.request "c-5"%string 105)
         (Some Sample.bob) db1 Sample.bob Sample.alice (Some Sample.bike) None
       = (db2, Data "c-5"%string).
Proof.
  refine (proj2 (proj2
    (getOrCreateConversation_not_symmetric
       Sample.alice Sample.bob (Some Sample.bike) None _))
    (Sample.request "-"%string 100) (Sample.request "c-1"%string 100)
    (Sample.request "-"%string 105) (Sample.request "c-5"%string 105)
    empty_db eq_refl eq_refl eq_refl eq_refl _ eq_refl eq_refl _).
  - discriminate.
  - intros c [].
  - discriminate.
Defined.

(** Two different listings L1 and L2 (listing ids are non-empty strings):
    the calls for (A, B, L1) and for (A, B, L2) never return the same id, for
    the rows they return carry L1 and L2.  From a store in which neither
    lookup selects a row, each call of this model inserts a row of its
    own. *)
Theorem getOrCreateConversation_per_listing
        (A B : string) (L1 L2 : string) :
  L1 <> L2 -> L1 <> EmptyString -> L2 <> EmptyString ->
  (forall lookup1 create1 lookup2 create2 s1 s2 db db1 db2 i1 i2,
      conversations_pkey db ->
      getOrCreateConversation lookup1 create1 s1 db A B (Some L1) None = (db1, Data i1) ->
      getOrCreateConversation lookup2 create2 s2 db1 A B (Some L2) None = (db2, Data i2) ->
      i1 <> i2
      /\ exists c1 c2,
          In c1 (conversations db2) /\ In c2 (conversations db2)
          /\ Conversations.id c1 = i1 /\ Conversations.id c2 = i2
          /\ Conversations.listing_id c1 = Some L1
          /\ Conversations.listing_id c2 = Some L2)
  /\ (forall lookup1 create1 lookup2 create2 uid db,
         reachable lookup1 = true -> reachable create1 = true ->
         reachable lookup2 = true -> reachable create2 = true ->
         uid = A \/ uid = B ->
         (forall c, In c (conversations db) ->
                    lookup_filter A B (Some L1) None c = false
                    /\ lookup_filter A B (Some L2) None c = false) ->
         has_conversation db (gen_random_uuid create1) = false ->
         has_conversation db (gen_random_uuid create2) = false ->
         gen_random_uuid create1 <> gen_random_uuid create2 ->
         let row1 := Conversations.mk (gen_random_uuid create1) A B (Some L1) None
                                      (now create1) (now create1) in
         let row2 := Conversations.mk (gen_random_uuid create2) A B (Some L2) None
                                      (now create2) (now create2) in
         let db1 := mkDb (conversations db ++ [row1]) (messages db) in
         let db2 := mkDb ((conversations db ++ [row1]) ++ [row2]) (messages db) in
         getOrCreateConversation lookup1 create1 (Some uid) db A B (Some L1) None
         = (db1, Data (gen_random_uuid create1))
         /\ getOrCreateConversation lookup2 create2 (Some uid) db1 A B (Some L2) None
            = (db2, Data (gen_random_uuid create2))).
Proof.
  intros Hne H1 H2.
  assert (T1 : truthy (Some L1) = true)
    by (simpl; apply negb_true_iff; now apply String.eqb_neq).
  assert (T2 : truthy (Some L2) = true)
    by (simpl; apply negb_true_iff; now apply String.eqb_neq).
  assert (O1 : or_null (Some L1) = Some L1) by (unfold or_null; now rewrite T1).
  assert (O2 : or_null (Some L2) = Some L2) by (unfold or_null; now rewrite T2).
  split.
  - intros lookup1 create1 lookup2 create2 s1 s2 db db1 db2 i1 i2 Hpk R1 R2.
    apply getOrCreateConversation_returns in R1.
    destruct R1 as [_ [Hpk1 [c1 [Hc1 [Hi1 Hf1]]]]].
    apply getOrCreateConversation_returns in R2.
    destruct R2 as [Hincl [Hpk2 [c2 [Hc2 [Hi2 Hf2]]]]].
    apply (lookup_filter_listing _ _ _ _ _ T1) in Hf1.
    apply (lookup_filter_listing _ _ _ _ _ T2) in Hf2.
    split.
    + intros Heq.
      assert (c1 = c2).
      { apply (NoDup_map_eq Conversations.id (conversations db2)); auto.
        - apply Hpk2, Hpk1, Hpk.
        - congruence. }
      subst c2. congruence.
    + exists c1, c2. auto 10.
  - intros lookup1 create1 lookup2 create2 uid db Hl1 Hc1 Hl2 Hc2 Hu Hnone Hf1 Hf2 Hg.
    cbv zeta. split.
    + rewrite getOrCreateConversation_creates; auto.
      * now rewrite O1.
      * intros c Hc. now apply Hnone.
    + rewrite getOrCreateConversation_creates; auto.
      * now rewrite O2.
      * simpl. intros c Hc. apply in_app_or in Hc. destruct Hc as [Hc|[<-|[]]].
        -- now apply Hnone.
        -- destruct (lookup_filter A B (Some L2) None _) eqn:E; [|reflexivity].
           apply (lookup_filter_listing _ _ _ _ _ T2) in E. simpl in E. congruence.
      * now apply has_conversation_app.
Qed.

(** alice asks bob about his bike and about his lamp. *)
Lemma getOrCreateConversation_per_listing_witness :
  getOrCreateConversation (Sample.request "-"%string 100) (Sample.request "c-1"%string 100)
    (Some Sample.alice) empty_db Sample.alice Sample.bob (Some Sample.bike) None
  = (Sample.one_conversation, Data "c-1"%string)
  /\ exists db2,
      getOrCreateConversation (Sample.request "-"%string 105)
        (Sample.request "c-5"%string 105)
        (Some Sample.alice) Sample.one_conversation Sample.alice Sample.bob
        (Some Sample.lamp) None
      = (db2, Data "c-5"%string).
Proof.
  destruct (proj2
    (getOrCreateConversation_per_listing
       Sample.alice Sample.bob Sample.bike Sample.lamp
       ltac:(discriminate) ltac:(discriminate) ltac:(discriminate))
    (Sample.request "-"%string 100) (Sample.request "c-1"%string 100)
    (Sample.request "-"%string 105) (Sample.request "c-5"%string 105)
    Sample.alice empty_db eq_refl eq_refl eq_refl eq_refl (or_introl eq_refl)
    ltac:(intros c []) eq_refl eq_refl ltac:(discriminate)) as [R1 R2].
  split; [exact R1|]. eexists. exact R2.
Defined.

End ResolverPairs.

Section ResolverAbsentRefs.
Import Supabase.

(** A call that has returned an id returns it again, and writes nothing
    the second time. *)
Lemma getOrCreateConversation_again
      (lookup create lookup' create' : round_trip) (s : session) (db db1 : database)
      (u o : string) (l r : option string) (i : uuid) :
  getOrCreateConversation lookup create s db u o l r = (db1, Data i) ->
  reachable lookup' = true ->
  getOrCreateConversation lookup' create' s db1 u o l r = (db1, Data i).
Proof.
  intros H Hl'. revert H.
  unfold getOrCreateConversation at 1. unfold select_conversations.
  destruct (reachable lookup); simpl; [|discriminate].
  destruct (filter _ (conversations db)) as [|a [|b rest]] eqn:Ef; simpl;
    [| |discriminate].
  - unfold insert_conversation.
    destruct (reachable create); simpl; [|discriminate].
    destruct (Policy.authenticated Policy.conversations_insert_check s _
              && Policy.authenticated Policy.conversations_select s _) eqn:Ep;
      simpl; [|discriminate].
    destruct (has_conversation db (gen_random_uuid create)); simpl; [discriminate|].
    intros H. injection H as <- <-.
    match goal with
    | |- context [conversations db ++ [?new]] =>
        apply (getOrCreateConversation_finds lookup' create' s _ u o l r new)
    end; [assumption|].
    simpl. rewrite filter_app, Ef. simpl.
    apply andb_true_iff in Ep. destruct Ep as [_ ->].
    now rewrite lookup_filter_new.
  - intros H. injection H as <- <-.
    now apply getOrCreateConversation_finds.
Qed.

(** C3: a ref that is not given is not compared at all.  With both refs
    absent the lookup selects every row of the ordered pair, whatever its
    listing_id and request_id: alice and bob have one conversation, about
    his bike, and the call without refs returns it. *)
Theorem lookup_ignores_absent_refs :
  (forall i u o l r t t',
      lookup_filter u o None None (Conversations.mk i u o l r t t') = true)
  /\ getOrCreateConversation (Sample.request "-"%string 150)
       (Sample.request "c-9"%string 150) (Some Sample.alice) Sample.one_conversation
       Sample.alice Sample.bob None None
     = (Sample.one_conversation, Data (Conversations.id Sample.about_bike))
  /\ Conversations.listing_id Sample.about_bike = Some Sample.bike.
Proof.
  split; [|split; reflexivity].
  intros. unfold lookup_filter. simpl. now rewrite !String.eqb_refl.
Qed.

(** C1: called twice for the tuple (alice, bob, no listing, no request).
    In the store with their conversation about the bike both calls return
    that conversation and no row carries the tuple.  In the store the two
    calls of the listing and request screens leave behind, with one
    conversation about the bike and one about the sofa, both calls fail
    and return no id. *)
Theorem getOrCreateConversation_twice_without_refs :
  let call := fun db =>
    getOrCreateConversation (Sample.request "-"%string 150)
      (Sample.request "c-9"%string 150) (Some Sample.alice) db
      Sample.alice Sample.bob None None in
  (call Sample.one_conversation
   = (Sample.one_conversation, Data (Conversations.id Sample.about_bike))
   /\ rows_of_tuple Sample.one_conversation Sample.alice Sample.bob None None = [])
  /\ (getOrCreateConversation (Sample.request "-"%string 100)
        (Sample.request "c-1"%string 100) (Some Sample.alice) empty_db
        Sample.alice Sample.bob (Some Sample.bike) None
      = (Sample.one_conversation, Data "c-1"%string)
      /\ getOrCreateConversation (Sample.request "-"%string 110)
           (Sample.request "c-2"%string 110) (Some Sample.alice) Sample.one_conversation
           Sample.alice Sample.bob None (Some Sample.sofa_wanted)
         = (Sample.two_conversations, Data "c-2"%string)
      /\ call Sample.two_conversations = (Sample.two_conversations, Error MultipleRows)).
Proof. repeat split. Qed.

End ResolverAbsentRefs.

(** ** The constraints hold in every reachable state *)

Section Constraints.
Import Supabase.

Lemma key_absent {A : Type} (key : A -> uuid) (l : list A) (i : uuid) :
  existsb (fun x => String.eqb (key x) i) l = false <-> ~ In i (map key l).
Proof.
  induction l as [|a l IH]; simpl.
  - tauto.
  - rewrite orb_false_iff, IH, String.eqb_neq. tauto.
Qed.

Lemma NoDup_snoc (keys : list uuid) (k : uuid) :
  NoDup keys -> ~ In k keys -> NoDup (keys ++ [k]).
Proof.
  intros Hnd Hk.
  apply Permutation_NoDup with (l := k :: keys).
  - apply Permutation_cons_append.
  - now constructor.
Qed.

Lemma has_conversation_same_keys (db db' : database) (i : uuid) :
  map Conversations.id (conversations db') = map Conversations.id (conversations db) ->
  has_conversation db' i = has_conversation db i.
Proof.
  intros Hk. unfold has_conversation.
  destruct (existsb _ (conversations db)) eqn:E.
  - apply existsb_exists in E. destruct E as [c [Hc Hi]].
    apply String.eqb_eq in Hi.
    assert (Hin : In i (map Conversations.id (conversations db')))
      by (rewrite Hk, <- Hi; now apply in_map).
    destruct (existsb _ (conversations db')) eqn:E'; [reflexivity|].
    now apply (key_absent Conversations.id) in E'.
  - apply (key_absent Conversations.id) in E.
    apply (key_absent Conversations.id). now rewrite Hk.
Qed.

Lemma update_check_has_conversation (s : session) (db : database) (m : Messages.row) :
  Policy.authenticated (fun uid => Policy.messages_update_check uid db) s m = true ->
  has_conversation db (Messages.conversation_id m) = true.
Proof.
  destruct s as [uid|]; simpl; [|discriminate].
  unfold Policy.messages_update_check, has_conversation.
  rewrite !existsb_exists. intros [c [Hc H]]. exists c. split; [assumption|].
  apply andb_true_iff in H. tauto.
Qed.

(** Every state the client statements can produce satisfies the two primary
    keys and the foreign key of the schema. *)
Lemma reachable_state_constraints (db : database) :
  reachable_state db ->
  conversations_pkey db /\ messages_pkey db /\ messages_conversation_fkey db.
Proof.
  induction 1 as [ | rt s db p1 p2 l r _ [Hc [Hm Hf]]
                   | rt s db returning conv sender content _ [Hc [Hm Hf]]
                   | rt s db where_ set_ _ [Hc [Hm Hf]]
                   | grant rt s db where_ t _ [Hc [Hm Hf]] ].
  - repeat split; try constructor. intros m [].
  - unfold insert_conversation.
    destruct (negb (reachable rt)); [auto|].
    destruct (negb _); [auto|].
    destruct (has_conversation db _) eqn:E; [auto|]. simpl.
    split; [|split].
    + unfold conversations_pkey. simpl. rewrite map_app. simpl.
      apply NoDup_snoc; [assumption|]. now apply (key_absent Conversations.id).
    + assumption.
    + intros m Hin. specialize (Hf m Hin). unfold has_conversation in *. simpl.
      rewrite existsb_app, Hf. reflexivity.
  - unfold insert_message.
    destruct (negb (reachable rt)); [auto|].
    destruct sender as [uid|]; [|auto].
    destruct (negb _); [auto|].
    destruct (has_message db _) eqn:E; [auto|].
    destruct (has_conversation db conv) eqn:Ec; simpl; [|auto].
    split; [assumption|]. split.
    + unfold messages_pkey. simpl. rewrite map_app. simpl.
      apply NoDup_snoc; [assumption|]. now apply (key_absent Messages.id).
    + intros m Hin. simpl in Hin. apply in_app_or in Hin.
      destruct Hin as [Hin|[<-|[]]]; [now apply Hf|exact Ec].
  - unfold update_messages.
    destruct (negb (reachable rt)); [auto|].
    destruct (existsb _ (messages db)) eqn:Ex; [auto|].
    cbv zeta.
    destruct (distinct _) eqn:Ed; simpl; [|auto].
    split; [assumption|]. split; [now apply distinct_NoDup|].
    intros m Hin. simpl in Hin. apply in_map_iff in Hin.
    destruct Hin as [x [<- Hx]].
    change (has_conversation
              (mkDb (conversations db)
                    (map (fun m => if update_targets s db where_ m then set_ m else m)
                         (messages db))))
      with (has_conversation db).
    destruct (update_targets s db where_ x) eqn:Et; [|now apply Hf].
    apply (update_check_has_conversation s).
    destruct (Policy.authenticated _ s (set_ x)) eqn:Echeck; [reflexivity|].
    assert (existsb
              (fun m => update_targets s db where_ m
                        && negb (Policy.authenticated
                                   (fun uid => Policy.messages_update_check uid db)
                                   s (set_ m)))
              (messages db) = true).
    { apply existsb_exists. exists x. split; [assumption|]. now rewrite Et, Echeck. }
    congruence.
  - unfold update_conversations.
    destruct (negb (reachable rt)); [auto|]. simpl.
    assert (Hk : map Conversations.id
                   (map (fun c => if where_ c && Policy.authenticated grant s c
                                  then Chat.set_last_message_at t c else c)
                        (conversations db))
                 = map Conversations.id (conversations db)).
    { rewrite map_map. apply map_ext. intros c. now destruct (_ && _). }
    split; [|split].
    + unfold conversations_pkey. simpl. now rewrite Hk.
    + assumption.
    + intros m Hin. rewrite <- (Hf m Hin).
      now apply has_conversation_same_keys.
Qed.

End Constraints.

(** * Further properties of the resolver *)

Section ResolverFrame.
Import Supabase.

(** X1: a call touches no message, removes and changes no conversation, and
    adds at most one: the row of the pair and the refs given, and only after
    a lookup that selected nothing.  A call that fails leaves the store as it
    was. *)
Theorem getOrCreateConversation_writes_at_most_one_row
        (lookup create : round_trip) (s : session) (db db' : database)
        (u o : string) (l r : option string) (res : response uuid) :
  getOrCreateConversation lookup create s db u o l r = (db', res) ->
  messages db' = messages db
  /\ (forall e, res = Error e -> db' = db)
  /\ (conversations db' = conversations db
      \/ conversations db'
         = conversations db
           ++ [Conversations.mk (gen_random_uuid create) u o (or_null l) (or_null r)
                                (now create) (now create)]
         /\ res = Data (gen_random_uuid create)
         /\ forall c, In c (conversations db) ->
                      Policy.authenticated Policy.conversations_select s c
                      && lookup_filter u o l r c = false).
Proof.
  unfold getOrCreateConversation, select_conversations.
  destruct (reachable lookup); simpl.
  2:{ intros H. injection H as <- <-. auto. }
  destruct (filter _ (conversations db)) as [|a [|b rest]] eqn:Ef; simpl.
  - unfold insert_conversation.
    destruct (reachable create); simpl.
    2:{ intros H. injection H as <- <-. auto. }
    destruct (negb _); simpl.
    1:{ intros H. injection H as <- <-. auto. }
    destruct (has_conversation db (gen_random_uuid create)); simpl.
    1:{ intros H. injection H as <- <-. auto. }
    intros H. injection H as <- <-. simpl.
    split; [reflexivity|]. split; [discriminate|]. right.
    split; [reflexivity|]. split; [reflexivity|].
    intros c Hc.
    destruct (_ && _) eqn:E; [|reflexivity].
    assert (Hin : In c (filter
              (fun c => Policy.authenticated Policy.conversations_select s c
                        && lookup_filter u o l r c) (conversations db)))
      by (apply filter_In; auto).
    rewrite Ef in Hin. contradiction.
  - intros H. injection H as <- <-. auto.
  - intros H. injection H as <- <-. auto.
Qed.

Lemma getOrCreateConversation_writes_at_most_one_row_witness :
  messages Sample.two_conversations = messages Sample.one_conversation
  /\ conversations Sample.two_conversations
     = conversations Sample.one_conversation ++ [Sample.about_sofa].
Proof.
  destruct (getOrCreateConversation_writes_at_most_one_row
              (Sample.request "-"%string 110) (Sample.request "c-2"%string 110)
              (Some Sample.alice) Sample.one_conversation Sample.two_conversations
              Sample.alice Sample.bob None (Some Sample.sofa_wanted)
              (Data "c-2"%string) eq_refl) as [Hm [_ [Hc|[Hc _]]]].
  - discriminate Hc.
  - split; [exact Hm|exact Hc].
Defined.

(** X2: a call that has returned an id is repeated without effect: the next
    call with the same arguments returns the same id and leaves the store as
    it is, in which the lookup selects exactly the row with that id. *)
Theorem getOrCreateConversation_idempotent
        (lookup create lookup' create' : round_trip) (s : session) (db db1 : database)
        (u o : string) (l r : option string) (i : uuid) :
  getOrCreateConversation lookup create s db u o l r = (db1, Data i) ->
  reachable lookup' = true ->
  getOrCreateConversation lookup' create' s db1 u o l r = (db1, Data i)
  /\ exists c,
      filter (fun c => Policy.authenticated Policy.conversations_select s c
                       && lookup_filter u o l r c) (conversations db1) = [c]
      /\ Conversations.id c = i.
Proof.
  intros H Hl'.
  pose proof (getOrCreateConversation_again _ _ lookup' create' _ _ _ _ _ _ _ _ H Hl')
    as Hagain.
  split; [exact Hagain|].
  revert Hagain. unfold getOrCreateConversation, select_conversations. rewrite Hl'.
  destruct (filter _ (conversations db1)) as [|a [|b rest]]; simpl.
  - unfold insert_conversation.
    destruct (reachable create'); simpl; [|discriminate].
    destruct (negb _); simpl; [discriminate|].
    destruct (has_conversation _ _); simpl; [discriminate|].
    intros E. injection E as E _.
    apply (f_equal conversations) in E. simpl in E.
    apply (f_equal (@length _)) in E. rewrite length_app in E. simpl in E. lia.
  - intros E. injection E as <-. eauto.
  - discriminate.
Qed.

Lemma getOrCreateConversation_idempotent_witness :
  getOrCreateConversation (Sample.request "-"%string 150) (Sample.request "c-9"%string 150)
    (Some Sample.alice) Sample.one_conversation Sample.alice Sample.bob
    (Some Sample.bike) None
  = (Sample.one_conversation, Data "c-1"%string).
Proof.
  exact (proj1 (getOrCreateConversation_idempotent
           (Sample.request "-"%string 100) (Sample.request "c-1"%string 100)
           (Sample.request "-"%string 150) (Sample.request "c-9"%string 150)
           (Some Sample.alice) empty_db Sample.one_conversation
           Sample.alice Sample.bob (Some Sample.bike) None "c-1"%string
           eq_refl eq_refl)).
Defined.

(** X3: whoever is neither of the two users named, signed in or not, gets no id
    and writes nothing: the lookup cannot see a row of that pair and the
    insert policy refuses the new one. *)
Theorem getOrCreateConversation_for_others_forbidden
        (lookup create : round_trip) (s : session) (db : database)
        (u o : string) (l r : option string) :
  reachable lookup = true -> reachable create = true ->
  s <> Some u -> s <> Some o ->
  getOrCreateConversation lookup create s db u o l r = (db, Error Forbidden).
Proof.
  intros Hl Hc Hu Ho.
  unfold getOrCreateConversation, select_conversations. rewrite Hl.
  rewrite filter_none.
  - simpl. unfold insert_conversation. rewrite Hc. simpl.
    destruct s as [uid|]; simpl; [|reflexivity].
    unfold Policy.conversations_insert_check. simpl.
    assert (E1 : String.eqb uid u = false) by (apply String.eqb_neq; intros ->; tauto).
    assert (E2 : String.eqb uid o = false) by (apply String.eqb_neq; intros ->; tauto).
    now rewrite E1, E2.
  - intros c _. destruct s as [uid|]; simpl; [|reflexivity].
    destruct (lookup_filter u o l r c) eqn:E; [|apply andb_false_r].
    apply lookup_filter_pair in E. destruct E as [P1 P2].
    unfold Policy.conversations_select. rewrite P1, P2.
    assert (E1 : String.eqb uid u = false) by (apply String.eqb_neq; intros ->; tauto).
    assert (E2 : String.eqb uid o = false) by (apply String.eqb_neq; intros ->; tauto).
    now rewrite E1, E2.
Qed.

Lemma getOrCreateConversation_for_others_forbidden_witness :
  getOrCreateConversation (Sample.request "-"%string 150) (Sample.request "c-9"%string 150)
    (Some Sample.mallory) Sample.one_conversation Sample.alice Sample.bob
    (Some Sample.bike) None
  = (Sample.one_conversation, Error Forbidden).
Proof.
  apply getOrCreateConversation_for_others_forbidden;
    [reflexivity|reflexivity|discriminate|discriminate].
Defined.

End ResolverFrame.

(** * Opening a chat from the two screens *)

Section OneItem.
Import Supabase.

Lemma option_eqb_eq (a b : option uuid) : option_eqb a b = true <-> a = b.
Proof.
  destruct a as [x|], b as [y|]; simpl; try (split; discriminate).
  - rewrite String.eqb_eq. split; congruence.
  - tauto.
Qed.

Lemma filter_at_most_one {A : Type} (f : A -> bool) (l : list A) :
  NoDup l ->
  (forall x y, In x l -> In y l -> f x = true -> f y = true -> x = y) ->
  filter f l = [] \/ exists a, filter f l = [a].
Proof.
  intros Hnd Hone.
  pose proof (NoDup_filter f Hnd) as Hf.
  destruct (filter f l) as [|a [|b rest]] eqn:E; eauto.
  exfalso.
  assert (Ha : In a (filter f l)) by (rewrite E; simpl; auto).
  assert (Hb : In b (filter f l)) by (rewrite E; simpl; auto).
  apply filter_In in Ha, Hb.
  assert (a = b) by (apply Hone; tauto). subst b.
  inversion Hf as [|? ? Hnotin _]. apply Hnotin. simpl. auto.
Qed.

(** The refs a screen passes: one item, as listing or as request. *)
Variables (l r : option string).
Hypothesis Hgiven :
  (exists L, l = Some L /\ L <> EmptyString /\ r = None)
  \/ (exists R, r = Some R /\ R <> EmptyString /\ l = None).

Lemma or_null_given : or_null l = l /\ or_null r = r.
Proof.
  destruct Hgiven as [[L [-> [HL ->]]]|[R [-> [HR ->]]]]; unfold or_null; simpl;
    match goal with
    | H : ?x <> EmptyString |- _ => apply String.eqb_neq in H; rewrite H
    end; auto.
Qed.

(** On a row about one item the lookup for one item is exact. *)
Lemma lookup_filter_exact (u o : string) (c : Conversations.row) :
  about_one_item c ->
  (lookup_filter u o l r c = true
   <-> Conversations.participant_1_id c = u /\ Conversations.participant_2_id c = o
       /\ Conversations.listing_id c = l /\ Conversations.request_id c = r).
Proof.
  intros Hc. unfold lookup_filter. cbv zeta.
  destruct Hgiven as [[L [-> [HL ->]]]|[R [-> [HR ->]]]]; simpl;
    match goal with
    | H : ?x <> EmptyString |- _ => apply String.eqb_neq in H; rewrite H
    end; simpl;
    rewrite !andb_true_iff, !String.eqb_eq; unfold eq_col;
    destruct Hc as [[L' [-> [_ ->]]]|[R' [-> [_ ->]]]];
    rewrite ?String.eqb_eq;
    intuition (try discriminate; subst; try reflexivity; try congruence).
Qed.

Lemma tuple_filter_exact (u o : string) (c : Conversations.row) :
  String.eqb (Conversations.participant_1_id c) u
  && String.eqb (Conversations.participant_2_id c) o
  && option_eqb (Conversations.listing_id c) l
  && option_eqb (Conversations.request_id c) r = true
  <-> Conversations.participant_1_id c = u /\ Conversations.participant_2_id c = o
      /\ Conversations.listing_id c = l /\ Conversations.request_id c = r.
Proof.
  clear Hgiven.
  rewrite !andb_true_iff, !String.eqb_eq, !option_eqb_eq. tauto.
Qed.

(** For the caller [u] the rows the lookup returns are the rows of the
    tuple. *)
Lemma rows_of_tuple_lookup (u o : string) (db : database) :
  (forall c, In c (conversations db) -> about_one_item c) ->
  rows_of_tuple db u o l r
  = filter (fun c => Policy.authenticated Policy.conversations_select (Some u) c
                     && lookup_filter u o l r c) (conversations db).
Proof.
  intros Hall. unfold rows_of_tuple. apply filter_ext_in. intros c Hc.
  apply eq_iff_eq_true. rewrite tuple_filter_exact, andb_true_iff.
  rewrite (lookup_filter_exact u o c (Hall c Hc)).
  simpl. unfold Policy.conversations_select.
  split.
  - intros H. split; [|assumption].
    destruct H as [-> _]. now rewrite String.eqb_refl.
  - tauto.
Qed.

(** The resolver on a store written through the screens, called by [u] for
    another user [o] and one item. *)
Lemma resolver_on_screen_store
      (lookup create : round_trip) (db db' : database) (u o : string)
      (res : response uuid) :
  screen_store db -> u <> o ->
  getOrCreateConversation lookup create (Some u) db u o l r = (db', res) ->
  screen_store db'
  /\ res <> Error MultipleRows
  /\ (forall i, res = Data i ->
                exists c, rows_of_tuple db' u o l r = [c] /\ Conversations.id c = i)
  /\ (reachable lookup = true -> reachable create = true ->
      has_conversation db (gen_random_uuid create) = false ->
      exists i, res = Data i).
Proof.
  intros [Hpk [Hrows Huniq]] Hne.
  assert (Hall : forall c, In c (conversations db) -> about_one_item c)
    by (intros c Hc; now apply Hrows).
  pose proof (rows_of_tuple_lookup u o db Hall) as Hrt.
  unfold getOrCreateConversation, select_conversations.
  destruct (reachable lookup).
  2:{ simpl. intros H. injection H as <- <-.
      repeat split; try assumption; try discriminate.
      - now apply Hrows.
      - now apply Hrows. }
  destruct (filter_at_most_one
              (fun c => Policy.authenticated Policy.conversations_select (Some u) c
                        && lookup_filter u o l r c)
              (conversations db)) as [Ef|[a Ef]].
  { eapply NoDup_map_inv. exact Hpk. }
  { intros x y Hx Hy Fx Fy. apply Huniq; auto.
    apply andb_true_iff in Fx, Fy. destruct Fx as [_ Fx], Fy as [_ Fy].
    apply (lookup_filter_exact u o x (Hall x Hx)) in Fx.
    apply (lookup_filter_exact u o y (Hall y Hy)) in Fy.
    unfold same_tuple. intuition congruence. }
  - rewrite Ef. simpl. unfold insert_conversation.
    destruct (reachable create); simpl.
    2:{ intros H. injection H as <- <-.
        repeat split; try assumption; try discriminate.
        - now apply Hrows.
        - now apply Hrows. }
    unfold Policy.conversations_insert_check, Policy.conversations_select. simpl.
    rewrite String.eqb_refl. simpl.
    destruct (has_conversation db (gen_random_uuid create)) eqn:Eh; simpl.
    1:{ intros H. injection H as <- <-.
        repeat split; try assumption; try discriminate.
        - now apply Hrows.
        - now apply Hrows. }
    intros H. injection H as <- <-.
    destruct or_null_given as [Ol Or]. rewrite Ol, Or.
    set (new := Conversations.mk (gen_random_uuid create) u o l r
                                 (now create) (now create)).
    assert (Hnew : about_one_item new).
    { unfold about_one_item, new. simpl.
      destruct Hgiven as [[L [-> [HL ->]]]|[R [-> [HR ->]]]]; eauto. }
    assert (Hfresh : forall c, In c (conversations db) -> ~ same_tuple c new).
    { intros c Hc [T1 [T2 [T3 T4]]]. simpl in T1, T2, T3, T4.
      assert (In c (rows_of_tuple db u o l r)).
      { unfold rows_of_tuple. apply filter_In. split; [assumption|].
        apply tuple_filter_exact. auto. }
      rewrite Hrt, Ef in H. contradiction. }
    split; [|split; [discriminate|split]].
    + split; [|split].
      * unfold conversations_pkey. simpl. rewrite map_app. simpl.
        apply NoDup_snoc; [assumption|]. now apply has_conversation_false.
      * simpl. intros c Hc. apply in_app_or in Hc. destruct Hc as [Hc|[<-|[]]].
        -- now apply Hrows.
        -- split; [assumption|exact Hne].
      * simpl. intros c c' Hc Hc' Hsame.
        apply in_app_or in Hc, Hc'.
        destruct Hc as [Hc|[<-|[]]], Hc' as [Hc'|[<-|[]]].
        -- now apply Huniq.
        -- exfalso. now apply (Hfresh c Hc).
        -- exfalso. apply (Hfresh c' Hc').
           unfold same_tuple in *. intuition congruence.
        -- reflexivity.
    + intros i Hi. injection Hi as <-. exists new. split; [|reflexivity].
      unfold rows_of_tuple. simpl. rewrite filter_app.
      fold (rows_of_tuple db u o l r). rewrite Hrt, Ef. simpl.
      assert (Ht : String.eqb u u && String.eqb o o && option_eqb l l && option_eqb r r
                   = true).
      { rewrite !String.eqb_refl. simpl.
        now rewrite (proj2 (option_eqb_eq l l) eq_refl),
                    (proj2 (option_eqb_eq r r) eq_refl). }
      now rewrite Ht.
    + eauto.
  - rewrite Ef. simpl. intros H. injection H as <- <-.
    split; [repeat split; try assumption; now apply Hrows|].
    split; [discriminate|]. split; [|eauto].
    intros i Hi. injection Hi as <-. exists a. split; [|reflexivity].
    now rewrite Hrt, Ef.
Qed.

End OneItem.

Section Screens.
Import Supabase.

Lemma getOrCreateConversation_error_unchanged
      (lookup create : round_trip) (s : session) (db db' : database)
      (u o : string) (l r : option string) (e : store_error) :
  getOrCreateConversation lookup create s db u o l r = (db', Error e) -> db' = db.
Proof.
  unfold getOrCreateConversation, select_conversations.
  destruct (reachable lookup); simpl; [|congruence].
  destruct (filter _ (conversations db)) as [|a [|b rest]]; simpl; try congruence.
  unfold insert_conversation.
  destruct (reachable create); simpl; [|congruence].
  destruct (negb _); simpl; [congruence|].
  destruct (has_conversation _ _); simpl; [congruence|discriminate].
Qed.

(** Both screens' [handleChat], read as one function of the refs they pass. *)
Lemma handleChat_on_screen_store
      (l r : option string) (lookup create : round_trip) (user : session)
      (db db' : database) (owner : uuid) (out : opening) :
  ((exists L, l = Some L /\ L <> EmptyString /\ r = None)
   \/ (exists R, r = Some R /\ R <> EmptyString /\ l = None)) ->
  screen_store db ->
  match user with
  | None => (db, MustBeLoggedIn)
  | Some id =>
      if String.eqb id owner then (db, CannotChatWithYourself)
      else
        match getOrCreateConversation lookup create user db id owner l r with
        | (db', Data conversationId) => (db', Pushed conversationId)
        | (db', Error error) => (db', CouldNotOpenChat error)
        end
  end = (db', out) ->
  screen_store db'
  /\ (out = MustBeLoggedIn <-> user = None)
  /\ (out = CannotChatWithYourself <-> user = Some owner)
  /\ (forall e, out = CouldNotOpenChat e -> e <> MultipleRows /\ db' = db)
  /\ (forall i, out = Pushed i ->
                exists uid c,
                  user = Some uid /\ uid <> owner
                  /\ rows_of_tuple db' uid owner l r = [c]
                  /\ Conversations.id c = i)
  /\ (forall uid, user = Some uid -> uid <> owner ->
                  reachable lookup = true -> reachable create = true ->
                  has_conversation db (gen_random_uuid create) = false ->
                  exists i, out = Pushed i).
Proof.
  intros Hgiven Hstore.
  destruct user as [uid|].
  2:{ intros H. injection H as <- <-.
      split; [assumption|].
      repeat split; intros; try assumption; try discriminate; try reflexivity. }
  destruct (String.eqb uid owner) eqn:Eo.
  { apply String.eqb_eq in Eo. subst owner.
    intros H. injection H as <- <-.
    split; [assumption|].
    repeat split; intros; try assumption; try discriminate; try reflexivity.
    match goal with
    | H : Some _ = Some _ |- _ => injection H as <-
    end.
    contradiction. }
  apply String.eqb_neq in Eo.
  destruct (getOrCreateConversation lookup create (Some uid) db uid owner l r)
    as [db1 res] eqn:Ecall.
  destruct (resolver_on_screen_store l r Hgiven lookup create db db1 uid owner res
              Hstore Eo Ecall) as [Hs [Hmr [Hrow Htot]]].
  destruct res as [i|e]; intros H; injection H as <- <-.
  - split; [assumption|].
    split; [split; discriminate|].
    split; [split; [discriminate|intros H; injection H as ->; contradiction]|].
    split; [intros e H; discriminate H|].
    split.
    + intros j Hj. injection Hj as <-.
      destruct (Hrow i eq_refl) as [c [Hc Hi]]. exists uid, c. auto.
    + eauto.
  - split; [assumption|].
    split; [split; discriminate|].
    split; [split; [discriminate|intros H; injection H as ->; contradiction]|].
    split.
    + intros e' H. injection H as <-.
      split; [congruence|].
      now apply (getOrCreateConversation_error_unchanged _ _ _ _ _ _ _ _ _ _ Ecall).
    + split; [intros j H; discriminate H|].
      intros u' H Hne Hl Hc Hf. destruct (Htot Hl Hc Hf) as [j Hj]. discriminate Hj.
Qed.

(** X4: a call of the browse screen's [handleChat] that runs with no other
    write between its lookup and its insert, on a store written through the
    screens: it never opens a chat of a user with themselves, never fails on
    an ambiguous lookup, leaves the store as it was when it fails, and keeps
    the store one written through the screens; when it pushes a route, the
    conversation is the one row between the user and the listing's owner
    about that listing. *)
Theorem browse_handleChat_on_screen_store
        (lookup create : round_trip) (user : session) (db db' : database)
        (listing : item) (out : opening) :
  screen_store db -> item_id listing <> EmptyString ->
  Browse.handleChat lookup create user db listing = (db', out) ->
  screen_store db'
  /\ (out = MustBeLoggedIn <-> user = None)
  /\ (out = CannotChatWithYourself <-> user = Some (user_id listing))
  /\ (forall e, out = CouldNotOpenChat e -> e <> MultipleRows /\ db' = db)
  /\ (forall i, out = Pushed i ->
                exists uid c,
                  user = Some uid /\ uid <> user_id listing
                  /\ rows_of_tuple db' uid (user_id listing)
                                   (Some (item_id listing)) None = [c]
                  /\ Conversations.id c = i).
Proof.
  intros Hstore Hid Hcall. unfold Browse.handleChat in Hcall.
  destruct (handleChat_on_screen_store (Some (item_id listing)) None lookup create
              user db db' (user_id listing) out) as [H1 [H2 [H3 [H4 [H5 _]]]]];
    [left; exists (item_id listing); auto|assumption|assumption|].
  auto.
Qed.

(** X5: the same for a call of the requests screen's [handleChat] that
    runs with no other write between its lookup and its insert: the
    conversation it opens is the one row between the user and the request's
    owner about that request. *)
Theorem requests_handleChat_on_screen_store
        (lookup create : round_trip) (user : session) (db db' : database)
        (request : item) (out : opening) :
  screen_store db -> item_id request <> EmptyString ->
  Requests.handleChat lookup create user db request = (db', out) ->
  screen_store db'
  /\ (out = MustBeLoggedIn <-> user = None)
  /\ (out = CannotChatWithYourself <-> user = Some (user_id request))
  /\ (forall e, out = CouldNotOpenChat e -> e <> MultipleRows /\ db' = db)
  /\ (forall i, out = Pushed i ->
                exists uid c,
                  user = Some uid /\ uid <> user_id request
                  /\ rows_of_tuple db' uid (user_id request)
                                   None (Some (item_id request)) = [c]
                  /\ Conversations.id c = i).
Proof.
  intros Hstore Hid Hcall. unfold Requests.handleChat in Hcall.
  destruct (handleChat_on_screen_store None (Some (item_id request)) lookup create
              user db db' (user_id request) out) as [H1 [H2 [H3 [H4 [H5 _]]]]];
    [right; exists (item_id request); auto|assumption|assumption|].
  auto.
Qed.

Lemma screen_store_empty : screen_store empty_db.
Proof.
  split; [constructor|]. split; intros c; simpl; tauto.
Qed.

Lemma screen_store_one_conversation : screen_store Sample.one_conversation.
Proof.
  split; [sample_pkey|]. split.
  - intros c [<-|[]]. split; [|discriminate].
    left. exists Sample.bike. repeat split. discriminate.
  - intros c c' [<-|[]] [<-|[]] _. reflexivity.
Qed.

(** alice taps "chat" on bob's bike in an empty store. *)
Lemma browse_handleChat_on_screen_store_witness :
  screen_store Sample.one_conversation
  /\ exists uid c,
      Some Sample.alice = Some uid /\ uid <> user_id bike_listing
      /\ rows_of_tuple Sample.one_conversation uid (user_id bike_listing)
                       (Some (item_id bike_listing)) None = [c]
      /\ Conversations.id c = Conversations.id Sample.about_bike.
Proof.
  destruct (browse_handleChat_on_screen_store
              (Sample.request "-"%string 100)
              (Sample.request (Conversations.id Sample.about_bike) 100)
              (Some Sample.alice) empty_db Sample.one_conversation bike_listing
              (Pushed (Conversations.id Sample.about_bike))
              screen_store_empty ltac:(discriminate) eq_refl)
    as [Hs [_ [_ [_ Hrow]]]].
  split; [exact Hs|]. exact (Hrow _ eq_refl).
Defined.

(** alice then answers bob's request for a sofa. *)
Lemma requests_handleChat_on_screen_store_witness :
  screen_store Sample.two_conversations
  /\ exists uid c,
      Some Sample.alice = Some uid /\ uid <> user_id sofa_request
      /\ rows_of_tuple Sample.two_conversations uid (user_id sofa_request)
                       None (Some (item_id sofa_request)) = [c]
      /\ Conversations.id c = Conversations.id Sample.about_sofa.
Proof.
  destruct (requests_handleChat_on_screen_store
              (Sample.request "-"%string 110)
              (Sample.request (Conversations.id Sample.about_sofa) 110)
              (Some Sample.alice) Sample.one_conversation Sample.two_conversations
              sofa_request (Pushed (Conversations.id Sample.about_sofa))
              screen_store_one_conversation
              ltac:(discriminate) eq_refl)
    as [Hs [_ [_ [_ Hrow]]]].
  split; [exact Hs|]. exact (Hrow _ eq_refl).
Defined.

End Screens.

(** * Further properties of the chat screen *)

Section BlankText.
Import Chat.

Lemma blank_trim_start (s : string) : blank (trim_start s) = blank s.
Proof.
  induction s as [|a s IH]; simpl; [reflexivity|].
  destruct (is_white_space a) eqn:E; simpl; [assumption|now rewrite E].
Qed.

Lemma trim_start_empty (s : string) : trim_start s = EmptyString <-> blank s = true.
Proof.
  induction s as [|a s IH]; simpl; [tauto|].
  destruct (is_white_space a); simpl; [assumption|].
  split; discriminate.
Qed.

Lemma blank_rev_append (s acc : string) :
  blank (rev_append s acc) = blank s && blank acc.
Proof.
  revert acc. induction s as [|a s IH]; intros acc; simpl; [reflexivity|].
  rewrite IH. simpl.
  destruct (is_white_space a), (blank s); reflexivity.
Qed.

Lemma rev_append_empty (s acc : string) :
  rev_append s acc = EmptyString <-> s = EmptyString /\ acc = EmptyString.
Proof.
  revert acc. induction s as [|a s IH]; intros acc; simpl; [tauto|].
  rewrite IH. split; [intros [_ H]; discriminate H|intros [H _]; discriminate H].
Qed.

(** [!messageText.trim()] holds exactly for a text of white space only. *)
Lemma trim_empty_iff_blank (s : string) :
  String.eqb (trim s) EmptyString = true <-> blank s = true.
Proof.
  rewrite String.eqb_eq. unfold trim.
  rewrite rev_append_empty, trim_start_empty, blank_rev_append, blank_trim_start.
  simpl. rewrite andb_true_r. tauto.
Qed.

(** X6: [handleSendMessage] returns at once, without a request and without
    touching its state, exactly when the text is white space only or the route
    has no id; in every other case it ends in a sent message or a caught
    error. *)
Theorem handleSendMessage_returns_iff_blank
        (grant : uuid -> Conversations.row -> bool)
        (insert update : round_trip) (date : timestamptz)
        (id : option string) (user : session) (st : state) (db : database) :
  let send := handleSendMessage grant insert update date id user st db in
  (snd send = Returned
   <-> blank (messageText st) = true \/ truthy id = false)
  /\ (snd send = Returned -> send = (st, db, Returned)).
Proof.
  cbv zeta. unfold handleSendMessage.
  destruct id as [conv|]; simpl.
  2:{ split; [split; auto|reflexivity]. }
  destruct (String.eqb (trim (messageText st)) EmptyString) eqn:Et; simpl.
  - apply trim_empty_iff_blank in Et. split; [split; auto|reflexivity].
  - assert (Hb : blank (messageText st) = false).
    { destruct (blank (messageText st)) eqn:Eb; [|reflexivity].
      apply trim_empty_iff_blank in Eb. congruence. }
    rewrite Hb.
    destruct (String.eqb conv EmptyString) eqn:Ec; simpl.
    + split; [split; auto|reflexivity].
    + destruct (Supabase.insert_message _ _ _ _ _ _ _) as [db1 res].
      destruct (Supabase.single res) as [data|e].
      * destruct (Supabase.update_conversations _ _ _ _ _ _) as [db2 u]. simpl.
        split; [split; [discriminate|intros [H|H]; discriminate H]|discriminate].
      * simpl.
        split; [split; [discriminate|intros [H|H]; discriminate H]|discriminate].
Qed.

End BlankText.

Section SentMessages.
Import Supabase Chat.

(** What a returning insert that succeeded has checked and written. *)
Lemma insert_message_returning_data
      (rt : round_trip) (s : session) (db db1 : database) (conv : uuid)
      (sender : option uuid) (content : string) (rows : list Messages.row) :
  insert_message rt s db true conv sender content = (db1, Data rows) ->
  exists uid,
    let new := Messages.mk (gen_random_uuid rt) conv uid content (now rt) None in
    s = Some uid /\ sender = Some uid /\ rows = [new]
    /\ db1 = mkDb (conversations db) (messages db ++ [new])
    /\ Policy.messages_select uid db new = true.
Proof.
  unfold insert_message.
  destruct (reachable rt); simpl; [|discriminate].
  destruct sender as [x|]; [|discriminate].
  destruct s as [uid|]; simpl; [|discriminate].
  unfold Policy.messages_insert_check. simpl.
  destruct (String.eqb uid x) eqn:Ex; simpl; [|discriminate].
  apply String.eqb_eq in Ex. subst x.
  destruct (Policy.messages_select uid db _) eqn:Es; simpl; [|discriminate].
  destruct (has_message _ _); [discriminate|].
  destruct (has_conversation _ _); simpl; [|discriminate].
  intros H. injection H as <- <-. exists uid. cbv zeta. auto.
Qed.

(** A send that ended in [Sent]: the row, the store and the state it
    leaves. *)
Lemma handleSendMessage_sent
      (grant : uuid -> Conversations.row -> bool)
      (insert update : round_trip) (date : timestamptz)
      (id : option string) (user : session) (st st' : state) (db db' : database)
      (data : Messages.row) :
  handleSendMessage grant insert update date id user st db = (st', db', Sent data) ->
  exists uid conv,
    user = Some uid /\ id = Some conv
    /\ data = Messages.mk (gen_random_uuid insert) conv uid (messageText st)
                          (now insert) None
    /\ Policy.messages_select uid db data = true
    /\ messages db' = messages db ++ [data]
    /\ st_messages st' = data :: st_messages st
    /\ (conversations db' = conversations db
        \/ conversations db'
           = map (fun c => if String.eqb (Conversations.id c) conv
                              && Policy.authenticated grant user c
                           then set_last_message_at date c else c)
                 (conversations db)).
Proof.
  unfold handleSendMessage.
  destruct id as [conv|]; [|discriminate].
  destruct (_ || _); [discriminate|].
  destruct (insert_message insert user db true conv user (messageText st))
    as [db1 res] eqn:Ei.
  destruct res as [rows|e]; simpl; [|discriminate].
  destruct (insert_message_returning_data _ _ _ _ _ _ _ _ Ei)
    as [uid [Hu [_ [-> [-> Hsel]]]]].
  simpl. unfold update_conversations.
  destruct (reachable update); simpl; intros H; injection H as <- <- <-;
    exists uid, conv; simpl; auto 10.
Qed.

(** The select policy reads of a conversation only its id and its two
    participants. *)
Lemma messages_select_same_participants
      (uid : uuid) (db db' : database) (g : Conversations.row -> Conversations.row)
      (m : Messages.row) :
  conversations db' = map g (conversations db) ->
  (forall c, Conversations.id (g c) = Conversations.id c
             /\ Conversations.participant_1_id (g c) = Conversations.participant_1_id c
             /\ Conversations.participant_2_id (g c) = Conversations.participant_2_id c) ->
  Policy.messages_select uid db' m = Policy.messages_select uid db m.
Proof.
  intros Hc Hg. unfold Policy.messages_select. rewrite Hc. clear Hc.
  induction (conversations db) as [|c l IH]; simpl; [reflexivity|].
  destruct (Hg c) as [-> [-> ->]]. now rewrite IH.
Qed.

Lemma retimed_row (date : timestamptz) (P : Conversations.row -> bool)
      (c : Conversations.row) :
  let c' := if P c then set_last_message_at date c else c in
  Conversations.id c' = Conversations.id c
  /\ Conversations.participant_1_id c' = Conversations.participant_1_id c
  /\ Conversations.participant_2_id c' = Conversations.participant_2_id c.
Proof. cbv zeta. destruct (P c); repeat split. Qed.

(** A message newer than all of a list comes first when appended to it. *)
Lemma order_by_newest_last (l : list Messages.row) (new : Messages.row) :
  (forall m, In m l -> Messages.created_at m < Messages.created_at new) ->
  order_by_created_at_desc (l ++ [new]) = new :: order_by_created_at_desc l.
Proof.
  induction l as [|x l IH]; intros Hnew; simpl; [reflexivity|].
  rewrite IH by (intros m Hm; apply Hnew; simpl; auto).
  simpl.
  assert (E : Z.leb (Messages.created_at new) (Messages.created_at x) = false).
  { apply Z.leb_gt. apply Hnew. simpl. auto. }
  now rewrite E.
Qed.

(** X7: after a send, listing the conversation again gives the message sent,
    followed by what the listing gave before, as long as the store's clock
    has moved past the messages the conversation already had; the list the
    screen keeps by putting the new row in front stays equal to the listing. *)
Theorem handleSendMessage_then_fetchMessages
        (grant : uuid -> Conversations.row -> bool)
        (insert update rt : round_trip) (date : timestamptz)
        (conv : string) (user : session) (st st' : state) (db db' : database)
        (data : Messages.row) :
  handleSendMessage grant insert update date (Some conv) user st db
  = (st', db', Sent data) ->
  reachable rt = true ->
  (forall m, In m (messages db) -> Messages.conversation_id m = conv ->
             Messages.created_at m < now insert) ->
  let listed := fun db => st_messages (fst (fetchMessages rt user db conv st)) in
  listed db' = data :: listed db
  /\ (st_messages st = listed db -> st_messages st' = listed db').
Proof.
  intros Hsend Hr Hclock.
  destruct (handleSendMessage_sent _ _ _ _ _ _ _ _ _ _ _ Hsend)
    as [uid [conv' [-> [Hid [Hdata [Hsel [Hm [Hst Hc]]]]]]]].
  injection Hid as <-.
  assert (Hsame : forall m, Policy.messages_select uid db' m
                            = Policy.messages_select uid db m).
  { intros m. destruct Hc as [Hc|Hc].
    - unfold Policy.messages_select. now rewrite Hc.
    - apply (messages_select_same_participants uid db db' _ m Hc).
      intros c.
      exact (retimed_row date
               (fun c => String.eqb (Conversations.id c) conv
                         && Policy.authenticated grant (Some uid) c) c). }
  assert (Hlist : st_messages (fst (fetchMessages rt (Some uid) db' conv st))
                  = data :: st_messages (fst (fetchMessages rt (Some uid) db conv st))).
  { unfold fetchMessages, select_messages. rewrite Hr. simpl.
    rewrite Hm, filter_app. simpl.
    rewrite Hsame, Hsel.
    assert (Ec : String.eqb (Messages.conversation_id data) conv = true)
      by (rewrite Hdata; simpl; apply String.eqb_refl).
    rewrite Ec. simpl.
    rewrite (filter_ext _ (fun m => Policy.messages_select uid db m
                                     && String.eqb (Messages.conversation_id m) conv)).
    2:{ intros m. now rewrite Hsame. }
    apply order_by_newest_last.
    intros m Hin. apply filter_In in Hin. destruct Hin as [Hin Hf].
    apply andb_true_iff in Hf. destruct Hf as [_ Hf]. apply String.eqb_eq in Hf.
    rewrite Hdata. simpl. now apply Hclock. }
  cbv zeta. split; [exact Hlist|].
  intros Hsync. now rewrite Hst, Hsync, Hlist.
Qed.

(** X8: whatever the chat screen stores was sent under the signed-in user's own
    id, and that user is a participant of the conversation the message went
    into. *)
Theorem handleSendMessage_sender_is_participant
        (grant : uuid -> Conversations.row -> bool)
        (insert update : round_trip) (date : timestamptz)
        (id : option string) (user : session) (st st' : state) (db db' : database)
        (data : Messages.row) :
  handleSendMessage grant insert update date id user st db = (st', db', Sent data) ->
  user = Some (Messages.sender_id data)
  /\ id = Some (Messages.conversation_id data)
  /\ In data (messages db')
  /\ (exists c, In c (conversations db)
                /\ Conversations.id c = Messages.conversation_id data
                /\ participant (Messages.sender_id data) c)
  /\ (conversations_pkey db ->
      forall c, In c (conversations db) ->
                Conversations.id c = Messages.conversation_id data ->
                participant (Messages.sender_id data) c).
Proof.
  intros Hsend.
  destruct (handleSendMessage_sent _ _ _ _ _ _ _ _ _ _ _ Hsend)
    as [uid [conv [-> [-> [Hdata [Hsel [Hm [_ _]]]]]]]].
  assert (Hs : Messages.sender_id data = uid) by (rewrite Hdata; reflexivity).
  assert (Hc : Messages.conversation_id data = conv) by (rewrite Hdata; reflexivity).
  rewrite Hs, Hc.
  split; [reflexivity|]. split; [reflexivity|].
  split; [rewrite Hm; apply in_or_app; right; left; reflexivity|].
  split.
  - unfold Policy.messages_select in Hsel. apply existsb_exists in Hsel.
    destruct Hsel as [c [Hin H]]. exists c. split; [assumption|].
    apply andb_true_iff in H. destruct H as [Hi Hp].
    apply String.eqb_eq in Hi. rewrite Hc in Hi. split; [assumption|].
    apply orb_true_iff in Hp. rewrite !String.eqb_eq in Hp.
    unfold participant. destruct Hp; auto.
  - intros Hpk c Hin Hi.
    apply (messages_select_spec db c data uid Hpk Hin); [congruence|assumption].
Qed.

(** bob answers alice's first message. *)
Lemma handleSendMessage_then_fetchMessages_witness :
  Chat.st_messages
    (fst (Chat.fetchMessages (Sample.request "-"%string 150) (Some Sample.bob) answered
            (Conversations.id Sample.about_bike)
            (Chat.mkState [Sample.hello] (Messages.content Sample.reply) false false)))
  = Sample.reply
    :: Chat.st_messages
         (fst (Chat.fetchMessages (Sample.request "-"%string 150) (Some Sample.bob) greeted
                 (Conversations.id Sample.about_bike)
                 (Chat.mkState [Sample.hello] (Messages.content Sample.reply)
                               false false))).
Proof.
  refine (proj1
    (handleSendMessage_then_fetchMessages Policy.conversations_select
       (Sample.request "m-2"%string 130) (mkRt "-"%string 131 false)
       (Sample.request "-"%string 150) 131
       (Conversations.id Sample.about_bike) (Some Sample.bob)
       (Chat.mkState [Sample.hello] (Messages.content Sample.reply) false false)
       (Chat.mkState [Sample.reply; Sample.hello] EmptyString false false)
       greeted answered Sample.reply eq_refl eq_refl _)).
  intros m [<-|[]] _. reflexivity.
Defined.

Lemma handleSendMessage_sender_is_participant_witness :
  Some Sample.bob = Some (Messages.sender_id Sample.reply)
  /\ In Sample.reply (messages answered).
Proof.
  destruct (handleSendMessage_sender_is_participant Policy.conversations_select
              (Sample.request "m-2"%string 130) (mkRt "-"%string 131 false) 131
              (Some (Conversations.id Sample.about_bike)) (Some Sample.bob)
              (Chat.mkState [Sample.hello] (Messages.content Sample.reply) false false)
              (Chat.mkState [Sample.reply; Sample.hello] EmptyString false false)
              greeted answered Sample.reply eq_refl) as [Hu [_ [Hin _]]].
  split; [exact Hu|exact Hin].
Defined.

End SentMessages.

(** * The header of the chat screen *)

Section Header.
Import Supabase ChatHeader.

Variables listings_title requests_title profiles_full_name : uuid -> option string.

Lemma otherParticipantId_spec (uid : uuid) (c : Conversations.row) :
  participant uid c ->
  Conversations.participant_1_id c <> Conversations.participant_2_id c ->
  participant (otherParticipantId (Some uid) c) c
  /\ otherParticipantId (Some uid) c <> uid
  /\ (uid = Conversations.participant_1_id c ->
      otherParticipantId (Some uid) c = Conversations.participant_2_id c)
  /\ (uid = Conversations.participant_2_id c ->
      otherParticipantId (Some uid) c = Conversations.participant_1_id c).
Proof.
  intros Hp Hne. unfold otherParticipantId, participant in *.
  destruct (String.eqb (Conversations.participant_1_id c) uid) eqn:E.
  - apply String.eqb_eq in E. subst uid.
    repeat split; auto; try (intros H; now symmetry in H).
  - apply String.eqb_neq in E.
    destruct Hp as [->| ->]; [contradiction|].
    repeat split; auto; try (intros H; now symmetry in H).
Qed.

(** What the header request gives a participant. *)
Lemma fetchConversation_found
      (select profile : round_trip) (uid : uuid) (db : database)
      (c : Conversations.row) (conversation : option view) :
  reachable select = true -> conversations_pkey db ->
  In c (conversations db) -> participant uid c ->
  fetchConversation listings_title requests_title profiles_full_name
                    select profile (Some uid) db (Conversations.id c) conversation
  = (Some (mkView c
             match Conversations.listing_id c with
             | Some i => listings_title i
             | None => None
             end
             match Conversations.request_id c with
             | Some i => requests_title i
             | None => None
             end
             (or_else (if reachable profile
                       then profiles_full_name (otherParticipantId (Some uid) c)
                       else None) "User")),
     Chat.Returned).
Proof.
  intros Hr Hpk Hin Hp.
  unfold fetchConversation, select_conversations. rewrite Hr.
  rewrite (filter_only _ _ c).
  - simpl. now rewrite andb_true_r.
  - eapply NoDup_map_inv. exact Hpk.
  - assumption.
  - intros x Hx. rewrite andb_true_iff, String.eqb_eq. split.
    + intros [_ Hid]. eapply NoDup_map_eq; eauto.
    + intros ->. split; [|reflexivity].
      simpl. unfold Policy.conversations_select.
      destruct Hp as [->| ->]; rewrite String.eqb_refl; auto using orb_true_r.
Qed.

(** X9: whoever takes no part in the conversation of that id, signed in or not,
    gets from [fetchConversation] what an id without a conversation gives:
    no error, and the header stays as it was. *)
Theorem fetchConversation_hidden_from_others
        (select profile : round_trip) (user : session) (db : database)
        (id : string) (conversation : option view) :
  reachable select = true ->
  (forall uid c, user = Some uid -> In c (conversations db) ->
                 Conversations.id c = id -> ~ participant uid c) ->
  fetchConversation listings_title requests_title profiles_full_name
                    select profile user db id conversation
  = (conversation, Chat.Returned).
Proof.
  intros Hr Hnot. unfold fetchConversation, select_conversations. rewrite Hr.
  rewrite filter_none; [reflexivity|].
  intros c Hc. destruct user as [uid|]; simpl; [|reflexivity].
  destruct (String.eqb (Conversations.id c) id) eqn:E; [|apply andb_false_r].
  apply String.eqb_eq in E. rewrite andb_true_r.
  unfold Policy.conversations_select.
  destruct (_ || _) eqn:Ep; [|reflexivity].
  exfalso. apply (Hnot uid c eq_refl Hc E).
  apply orb_true_iff in Ep. rewrite !String.eqb_eq in Ep. exact Ep.
Qed.

(** X10: for a participant of a conversation between two different users the
    header shows that conversation, under the name of the other participant:
    participant_2 for participant_1 and the reverse, with "User" when the
    profile request brings no name. *)
Theorem fetchConversation_names_the_other
        (select profile : round_trip) (uid : uuid) (db : database)
        (c : Conversations.row) (conversation : option view) :
  reachable select = true -> conversations_pkey db ->
  In c (conversations db) -> participant uid c ->
  Conversations.participant_1_id c <> Conversations.participant_2_id c ->
  exists v other,
    fetchConversation listings_title requests_title profiles_full_name
                      select profile (Some uid) db (Conversations.id c) conversation
    = (Some v, Chat.Returned)
    /\ row v = c
    /\ participant other c /\ other <> uid
    /\ (uid = Conversations.participant_1_id c ->
        other = Conversations.participant_2_id c)
    /\ (uid = Conversations.participant_2_id c ->
        other = Conversations.participant_1_id c)
    /\ other_participant v
       = or_else (if reachable profile then profiles_full_name other else None) "User"
    /\ other_participant v <> EmptyString.
Proof.
  intros Hr Hpk Hin Hp Hne.
  destruct (otherParticipantId_spec uid c Hp Hne) as [H1 [H2 [H3 H4]]].
  eexists. exists (otherParticipantId (Some uid) c).
  split; [now apply fetchConversation_found|].
  simpl. repeat split; auto.
  unfold or_else.
  destruct (if reachable profile then _ else None) as [n|]; [|discriminate].
  destruct (String.eqb n EmptyString) eqn:E; [discriminate|].
  now apply String.eqb_neq.
Qed.

End Header.

Section HeaderSamples.
Import ChatHeader.

(** mallory opens the route of alice's and bob's conversation. *)
Lemma fetchConversation_hidden_from_others_witness :
  fetchConversation sample_title sample_title sample_full_name
    (Sample.request "-"%string 150) (Sample.request "-"%string 151)
    (Some Sample.mallory) Sample.chat (Conversations.id Sample.about_bike) None
  = (None, Chat.Returned).
Proof.
  apply fetchConversation_hidden_from_others; [reflexivity|].
  intros uid c Hu [<-|[]] _ [H|H]; injection Hu as <-; discriminate H.
Defined.

(** bob opens it and reads alice's name. *)
Lemma fetchConversation_names_the_other_witness :
  exists v other,
    fetchConversation sample_title sample_title sample_full_name
      (Sample.request "-"%string 150) (Sample.request "-"%string 151)
      (Some Sample.bob) Sample.chat (Conversations.id Sample.about_bike) None
    = (Some v, Chat.Returned)
    /\ row v = Sample.about_bike
    /\ other = Sample.alice
    /\ other_participant v = "Alice A."%string.
Proof.
  destruct (fetchConversation_names_the_other sample_title sample_title sample_full_name
              (Sample.request "-"%string 150) (Sample.request "-"%string 151)
              Sample.bob Sample.chat Sample.about_bike None eq_refl
              ltac:(sample_pkey) ltac:(simpl; auto) (or_intror eq_refl)
              ltac:(discriminate))
    as [v [other [Hf [Hrow [_ [_ [_ [H2 [Hname _]]]]]]]]].
  exists v, other. split; [exact Hf|]. split; [exact Hrow|].
  pose proof (H2 eq_refl) as Ho. split; [exact Ho|].
  rewrite Hname, Ho. reflexivity.
Defined.

End HeaderSamples.

(** * From a screen to the chat *)

Section ScreenToChat.
Import Supabase ChatHeader.

Variables listings_title requests_title profiles_full_name : uuid -> option string.



End ScreenToChat.


(** * What holds in every state the application produces *)

Section AppStates.
Import Supabase Chat.

Lemma getOrCreateConversation_reachable
      (lookup create : round_trip) (s : session) (db : database)
      (u o : string) (l r : option string) :
  reachable_state db ->
  reachable_state (fst (getOrCreateConversation lookup create s db u o l r)).
Proof.
  intros Hdb. unfold getOrCreateConversation.
  destruct (maybeSingle _) as [[data|]|e]; simpl; try assumption.
  destruct (insert_conversation create s db u o (or_null l) (or_null r))
    as [db1 res] eqn:E.
  assert (Hdb1 : reachable_state db1).
  { change db1 with (fst (db1, res)). rewrite <- E. now constructor. }
  now destruct (single res).
Qed.

Lemma getOrCreateConversation_keeps
      (lookup create : round_trip) (s : session) (db : database)
      (u o : string) (l r : option string) :
  let db' := fst (getOrCreateConversation lookup create s db u o l r) in
  messages db' = messages db /\ incl (conversations db) (conversations db').
Proof.
  cbv zeta. unfold getOrCreateConversation.
  destruct (maybeSingle _) as [[data|]|e]; simpl; auto using incl_refl.
  unfold insert_conversation.
  destruct (negb (reachable create)); simpl; auto using incl_refl.
  destruct (negb _); simpl; auto using incl_refl.
  destruct (has_conversation _ _); simpl; auto using incl_refl.
  split; [reflexivity|apply incl_appl, incl_refl].
Qed.

Lemma handleSendMessage_reachable
      (grant : uuid -> Conversations.row -> bool)
      (insert update : round_trip) (date : timestamptz)
      (id : option string) (user : session) (st : state) (db : database) :
  reachable_state db ->
  reachable_state (snd (fst (handleSendMessage grant insert update date id user st db))).
Proof.
  intros Hdb. unfold handleSendMessage.
  destruct id as [conv|]; [|assumption].
  destruct (_ || _); [assumption|].
  destruct (insert_message insert user db true conv user (messageText st))
    as [db1 res] eqn:E.
  assert (Hdb1 : reachable_state db1).
  { change db1 with (fst (db1, res)). rewrite <- E. now constructor. }
  destruct (single res) as [data|e]; [|assumption].
  destruct (update_conversations grant update user db1
              (fun c => String.eqb (Conversations.id c) conv)
              (set_last_message_at date)) as [db2 u] eqn:E2.
  simpl. change db2 with (fst (db2, u)). rewrite <- E2. now constructor.
Qed.

Lemma handleSendMessage_not_sent
      (grant : uuid -> Conversations.row -> bool)
      (insert update : round_trip) (date : timestamptz)
      (id : option string) (user : session) (st st' : state) (db db' : database)
      (out : outcome) :
  handleSendMessage grant insert update date id user st db = (st', db', out) ->
  (forall data, out <> Sent data) -> db' = db.
Proof.
  unfold handleSendMessage.
  destruct id as [conv|]; [|congruence].
  destruct (_ || _); [congruence|].
  destruct (insert_message_returning_cases insert user db conv user (messageText st))
    as [[e He]|[uid [_ He]]]; rewrite He; simpl.
  - congruence.
  - destruct (update_conversations _ _ _ _ _ _) as [db2 u].
    intros H Hn. injection H as _ _ <-. now destruct (Hn _ eq_refl).
Qed.

(** [screen_store] and the senders' invariant read of the conversations only
    the columns a change of last_message_at leaves alone. *)
Lemma retimed_store (db db' : database) (g : Conversations.row -> Conversations.row) :
  conversations db' = map g (conversations db) ->
  (forall c, Conversations.id (g c) = Conversations.id c
             /\ Conversations.participant_1_id (g c) = Conversations.participant_1_id c
             /\ Conversations.participant_2_id (g c) = Conversations.participant_2_id c
             /\ Conversations.listing_id (g c) = Conversations.listing_id c
             /\ Conversations.request_id (g c) = Conversations.request_id c) ->
  screen_store db -> screen_store db'.
Proof.
  intros Hc Hg [Hpk [Hrows Huniq]].
  assert (Hin : forall c', In c' (conversations db') ->
                           exists c, In c (conversations db) /\ c' = g c).
  { intros c' H. rewrite Hc in H. apply in_map_iff in H.
    destruct H as [c [<- H]]. eauto. }
  split; [|split].
  - unfold conversations_pkey in *. rewrite Hc, map_map.
    rewrite (map_ext _ Conversations.id); [assumption|].
    intros c. apply Hg.
  - intros c' H. destruct (Hin c' H) as [c [Hc0 ->]].
    destruct (Hg c) as [_ [G1 [G2 [G3 G4]]]].
    destruct (Hrows c Hc0) as [Hone Hne].
    unfold about_one_item. rewrite G1, G2, G3, G4. auto.
  - intros c1' c2' H1 H2 [T1 [T2 [T3 T4]]].
    destruct (Hin c1' H1) as [c1 [Hc1 ->]], (Hin c2' H2) as [c2 [Hc2 ->]].
    destruct (Hg c1) as [_ [A1 [A2 [A3 A4]]]], (Hg c2) as [_ [B1 [B2 [B3 B4]]]].
    f_equal. apply Huniq; auto.
    unfold same_tuple. rewrite <- A1, <- A2, <- A3, <- A4, <- B1, <- B2, <- B3, <- B4.
    auto.
Qed.

Lemma retimed_all (date : timestamptz) (P : Conversations.row -> bool)
      (c : Conversations.row) :
  let c' := if P c then set_last_message_at date c else c in
  Conversations.id c' = Conversations.id c
  /\ Conversations.participant_1_id c' = Conversations.participant_1_id c
  /\ Conversations.participant_2_id c' = Conversations.participant_2_id c
  /\ Conversations.listing_id c' = Conversations.listing_id c
  /\ Conversations.request_id c' = Conversations.request_id c.
Proof. cbv zeta. destruct (P c); repeat split. Qed.

Lemma has_conversation_In (db : database) (i : uuid) :
  has_conversation db i = true ->
  exists c, In c (conversations db) /\ Conversations.id c = i.
Proof.
  unfold has_conversation. rewrite existsb_exists.
  intros [c [Hc Hi]]. apply String.eqb_eq in Hi. eauto.
Qed.

End AppStates.

Section HandlerWrites.
Import Supabase Chat.

Lemma handleChat_senders
      (db db' : database) :
  messages db' = messages db ->
  incl (conversations db) (conversations db') ->
  conversations_pkey db' -> messages_conversation_fkey db ->
  senders_are_participants db -> senders_are_participants db'.
Proof.
  intros Hm Hincl Hpk Hfk Hs m c Hin Hc Hid.
  rewrite Hm in Hin.
  destruct (has_conversation_In db _ (Hfk m Hin)) as [c0 [Hc0 Hid0]].
  assert (c0 = c).
  { apply (NoDup_map_eq Conversations.id (conversations db')); auto. congruence. }
  subst c0. now apply Hs.
Qed.

Lemma handler_writes_reachable (db : database) :
  handler_writes db -> reachable_state db.
Proof. induction 1; now constructor. Qed.

Lemma handler_writes_items_and_senders (db : database) :
  handler_writes db ->
  (forall c, In c (conversations db) ->
             about_one_item c
             /\ Conversations.participant_1_id c <> Conversations.participant_2_id c)
  /\ senders_are_participants db.
Proof.
  induction 1 as [ | create uid owner l r db Hw [IHi IHp] Hne Hg
                   | insert user db conv text Hw [IHi IHp]
                   | grant update user db conv date Hw [IHi IHp] ].
  - split; [intros c []|intros m c []].
  - destruct (reachable_state_constraints db (handler_writes_reachable db Hw))
      as [_ [_ Hfk]].
    destruct (reachable_state_constraints _
                (handler_writes_reachable _
                   (writes_conversation create uid owner l r db Hw Hne Hg)))
      as [Hpk' _].
    revert Hpk'. unfold insert_conversation.
    destruct (negb (reachable create)); [auto|].
    destruct (negb _); [auto|].
    destruct (has_conversation db _); [auto|]. simpl. intros Hpk'.
    destruct (or_null_given l r Hg) as [Ol Or]. rewrite Ol, Or in *.
    split.
    + intros c Hc. apply in_app_or in Hc. destruct Hc as [Hc|[<-|[]]]; [now apply IHi|].
      split; [|exact Hne]. unfold about_one_item. simpl.
      destruct Hg as [[L [-> [HL ->]]]|[R [-> [HR ->]]]]; eauto.
    + apply (handleChat_senders db); auto. simpl. apply incl_appl, incl_refl.
  - destruct (reachable_state_constraints db (handler_writes_reachable db Hw))
      as [Hpk _].
    destruct (insert_message insert user db true conv user text) as [db1 res] eqn:E.
    simpl. destruct res as [rows|e].
    + destruct (insert_message_returning_data _ _ _ _ _ _ _ _ E)
        as [uid [_ [_ [_ [-> Hsel]]]]].
      split; [exact IHi|].
      intros m c Hin Hc Hid. simpl in Hin, Hc.
      apply in_app_or in Hin. destruct Hin as [Hin|[<-|[]]]; [now apply IHp|].
      simpl in Hid |- *.
      match type of Hsel with
      | Policy.messages_select _ _ ?new = _ =>
          apply (messages_select_spec db c new uid Hpk Hc Hid); exact Hsel
      end.
    + destruct (insert_message_returning_cases insert user db conv user text)
        as [[e' He]|[uid [_ He]]]; rewrite He in E; [|discriminate].
      injection E as <- _. auto.
  - unfold update_conversations.
    destruct (negb (reachable update)); [auto|]. simpl.
    set (g := fun c => if String.eqb (Conversations.id c) conv
                          && Policy.authenticated grant user c
                       then set_last_message_at date c else c).
    assert (Hg : forall c,
               Conversations.id (g c) = Conversations.id c
               /\ Conversations.participant_1_id (g c) = Conversations.participant_1_id c
               /\ Conversations.participant_2_id (g c) = Conversations.participant_2_id c
               /\ Conversations.listing_id (g c) = Conversations.listing_id c
               /\ Conversations.request_id (g c) = Conversations.request_id c).
    { intros c.
      exact (retimed_all date
               (fun c => String.eqb (Conversations.id c) conv
                         && Policy.authenticated grant user c) c). }
    split.
    + intros c' Hc'. apply in_map_iff in Hc'. destruct Hc' as [c [<- Hc]].
      destruct (Hg c) as [_ [G1 [G2 [G3 G4]]]].
      destruct (IHi c Hc) as [Hone Hne].
      unfold about_one_item. rewrite G1, G2, G3, G4. auto.
    + intros m c' Hin Hc' Hid. simpl in Hin, Hc'.
      apply in_map_iff in Hc'. destruct Hc' as [c [<- Hc]].
      destruct (Hg c) as [G0 [G1 [G2 _]]].
      unfold participant. rewrite G1, G2. rewrite G0 in Hid.
      now apply IHp.
Qed.

(** What a call of the resolver leaves is the store it found or the store
    after its insert. *)
Lemma getOrCreateConversation_write
      (lookup create : round_trip) (s : session) (db : database)
      (u o : string) (l r : option string) :
  fst (getOrCreateConversation lookup create s db u o l r) = db
  \/ fst (getOrCreateConversation lookup create s db u o l r)
     = fst (insert_conversation create s db u o (or_null l) (or_null r)).
Proof.
  unfold getOrCreateConversation.
  destruct (maybeSingle _) as [[data|]|e]; simpl; auto.
  destruct (insert_conversation create s db u o (or_null l) (or_null r)) as [db1 res].
  right. now destruct (single res).
Qed.

Lemma handleChat_writes
      (l r : option string) (lookup create : round_trip) (user : session)
      (db : database) (owner : uuid) :
  one_item_given l r -> handler_writes db ->
  handler_writes
    (fst match user with
         | None => (db, MustBeLoggedIn)
         | Some id =>
             if String.eqb id owner then (db, CannotChatWithYourself)
             else
               match getOrCreateConversation lookup create user db id owner l r with
               | (db', Data conversationId) => (db', Pushed conversationId)
               | (db', Error error) => (db', CouldNotOpenChat error)
               end
         end).
Proof.
  intros Hg Hw. destruct user as [uid|]; [|assumption].
  destruct (String.eqb uid owner) eqn:E; [assumption|].
  apply String.eqb_neq in E.
  assert (Hres : handler_writes
                   (fst (getOrCreateConversation lookup create (Some uid) db uid owner l r))).
  { destruct (getOrCreateConversation_write lookup create (Some uid) db uid owner l r)
      as [->| ->]; [assumption|now constructor]. }
  now destruct (getOrCreateConversation _ _ _ _ _ _ _ _) as [db' [i|e]].
Qed.

Lemma handleSendMessage_writes
      (grant : uuid -> Conversations.row -> bool)
      (insert update : round_trip) (date : timestamptz)
      (id : option string) (user : session) (st : state) (db : database) :
  handler_writes db ->
  handler_writes (snd (fst (handleSendMessage grant insert update date id user st db))).
Proof.
  intros Hdb. unfold handleSendMessage.
  destruct id as [conv|]; [|assumption].
  destruct (_ || _); [assumption|].
  destruct (insert_message insert user db true conv user (messageText st))
    as [db1 res] eqn:E.
  assert (Hdb1 : handler_writes db1).
  { change db1 with (fst (db1, res)). rewrite <- E. now constructor. }
  destruct (single res) as [data|e]; [|assumption].
  destruct (update_conversations grant update user db1
              (fun c => String.eqb (Conversations.id c) conv)
              (set_last_message_at date)) as [db2 u] eqn:E2.
  simpl. change db2 with (fst (db2, u)). rewrite <- E2. now constructor.
Qed.

Lemma handler_writes_tapped_twice : handler_writes tapped_twice.
Proof.
  change tapped_twice with
    (fst (insert_conversation (Sample.request "c-2"%string 101) (Some Sample.alice)
            Sample.one_conversation Sample.alice Sample.bob
            (or_null (Some Sample.bike)) (or_null None))).
  apply writes_conversation;
    [|discriminate|left; exists Sample.bike; repeat split; discriminate].
  change Sample.one_conversation with
    (fst (insert_conversation (Sample.request "c-1"%string 100) (Some Sample.alice)
            empty_db Sample.alice Sample.bob
            (or_null (Some Sample.bike)) (or_null None))).
  apply writes_conversation;
    [apply writes_none|discriminate|left; exists Sample.bike; repeat split; discriminate].
Qed.

(** X12: whatever the writes of [handleChat] (both screens, on items with
    a non-empty id) and of [handleSendMessage] leave behind, in any order and
    however the runs overlap: conversation ids and message ids are unique,
    every message belongs to a conversation of the store, every conversation
    is between two different users about one item, and every message was sent
    by a participant of its conversation.  Complete runs of the three handlers
    stay within these stores.  That a pair has one row per item is not kept:
    two taps whose lookups are both answered before the first insert leave
    two rows of one tuple. *)
Theorem handler_writes_invariants :
  (forall db,
      handler_writes db ->
      conversations_pkey db
      /\ messages_pkey db
      /\ messages_conversation_fkey db
      /\ (forall c, In c (conversations db) ->
                    about_one_item c
                    /\ Conversations.participant_1_id c
                       <> Conversations.participant_2_id c)
      /\ senders_are_participants db)
  /\ (forall db,
         handler_writes db ->
         (forall lookup create user x,
             item_id x <> EmptyString ->
             handler_writes (fst (Browse.handleChat lookup create user db x))
             /\ handler_writes (fst (Requests.handleChat lookup create user db x)))
         /\ (forall grant insert update date id user st,
                handler_writes
                  (snd (fst (handleSendMessage grant insert update date id user st db)))))
  /\ (handler_writes tapped_twice
      /\ exists c c',
          In c (conversations tapped_twice) /\ In c' (conversations tapped_twice)
          /\ same_tuple c c' /\ c <> c').
Proof.
  split; [|split].
  - intros db Hw.
    destruct (reachable_state_constraints db (handler_writes_reachable db Hw))
      as [Hc [Hm Hfk]].
    destruct (handler_writes_items_and_senders db Hw) as [Hi Hp].
    auto.
  - intros db Hw. split.
    + intros lookup create user x Hx. split.
      * unfold Browse.handleChat. apply handleChat_writes; [|assumption].
        left. exists (item_id x). auto.
      * unfold Requests.handleChat. apply handleChat_writes; [|assumption].
        right. exists (item_id x). auto.
    + intros. now apply handleSendMessage_writes.
  - split; [exact handler_writes_tapped_twice|].
    eexists. eexists. simpl.
    split; [left; reflexivity|]. split; [right; left; reflexivity|].
    split; [repeat split|discriminate].
Qed.

(** Also after the two taps every conversation is about one item and ids
    are unique. *)
Lemma handler_writes_invariants_witness :
  handler_writes tapped_twice
  /\ conversations_pkey tapped_twice
  /\ senders_are_participants tapped_twice.
Proof.
  pose proof (proj1 (proj2 (proj2 handler_writes_invariants))) as Hw.
  destruct (proj1 handler_writes_invariants tapped_twice Hw) as [Hc [_ [_ [_ Hp]]]].
  split; [exact Hw|]. split; [exact Hc|exact Hp].
Defined.

End HandlerWrites.

(** * The list of conversations *)

Section InboxList.
Import Inbox.

Lemma insert_desc_conversations_perm (c : Conversations.row) (l : list Conversations.row) :
  Permutation (insert_desc c l) (c :: l).
Proof.
  induction l as [|x l IH]; simpl; [reflexivity|].
  destruct (Z.leb _ _); [reflexivity|].
  rewrite IH. apply perm_swap.
Qed.

Lemma order_by_last_message_at_perm (l : list Conversations.row) :
  Permutation (order_by_last_message_at_desc l) l.
Proof.
  induction l as [|c l IH]; simpl; [reflexivity|].
  rewrite insert_desc_conversations_perm. now apply perm_skip.
Qed.

Lemma insert_desc_conversations_sorted (c : Conversations.row)
      (l : list Conversations.row) :
  StronglySorted latest_first l -> StronglySorted latest_first (insert_desc c l).
Proof.
  induction 1 as [|x l Hs IH Hall]; simpl.
  - repeat constructor.
  - destruct (Z.leb (Conversations.last_message_at x) (Conversations.last_message_at c))
      eqn:E.
    + apply Z.leb_le in E. constructor; [now constructor|].
      constructor; [exact E|].
      eapply Forall_impl; [|exact Hall]. unfold latest_first. intros; lia.
    + apply Z.leb_gt in E. constructor; [assumption|].
      apply Forall_forall. intros y Hy.
      apply (Permutation_in _ (insert_desc_conversations_perm c l)) in Hy.
      destruct Hy as [<-|Hy].
      * unfold latest_first. lia.
      * rewrite Forall_forall in Hall. now apply Hall.
Qed.

Lemma order_by_last_message_at_sorted (l : list Conversations.row) :
  StronglySorted latest_first (order_by_last_message_at_desc l).
Proof.
  induction l as [|c l IH]; simpl; [constructor|].
  now apply insert_desc_conversations_sorted.
Qed.

Variables listings_title requests_title profiles_full_name : uuid -> option string.

(** X13: for a signed-in user whose request arrives, [fetchConversations] sets
    the list to the conversations the user takes part in, all of them and no
    other, the one with the latest last_message_at first; each entry names as
    other participant the one of the two who is not the user, under the
    profile's full name, or "Unknown" without one. *)
Theorem fetchConversations_lists_own_conversations
        (select profiles : round_trip) (uid : uuid) (db : database)
        (listed : list entry) :
  reachable select = true ->
  exists listed',
    fetchConversations listings_title requests_title profiles_full_name
                       select profiles (Some uid) db listed
    = (listed', Listed)
    /\ Permutation (map row listed')
                   (filter (Policy.conversations_select uid) (conversations db))
    /\ StronglySorted latest_first (map row listed')
    /\ forall e, In e listed' ->
         participant uid (row e)
         /\ other_participant_id e = ChatHeader.otherParticipantId (Some uid) (row e)
         /\ (Conversations.participant_1_id (row e) <> Conversations.participant_2_id (row e)
             -> other_participant_id e <> uid /\ participant (other_participant_id e) (row e))
         /\ (reachable profiles = true ->
             other_participant_full_name e
             = ChatHeader.or_else (profiles_full_name (other_participant_id e)) "Unknown").
Proof.
  intros Hr. unfold fetchConversations. rewrite Hr. simpl.
  rewrite (filter_ext _ (Policy.conversations_select uid)).
  2:{ intros c. unfold Policy.conversations_select.
      rewrite (String.eqb_sym (Conversations.participant_1_id c) uid).
      rewrite (String.eqb_sym (Conversations.participant_2_id c) uid).
      apply andb_diag. }
  set (data := order_by_last_message_at_desc
                 (filter (Policy.conversations_select uid) (conversations db))).
  set (enhance := fun conv => mkEntry conv _ _ _ _ _).
  set (name := fun conv => mkEntry _ _ _ _ _ _).
  assert (Hdata : Permutation data
                    (filter (Policy.conversations_select uid) (conversations db)))
    by apply order_by_last_message_at_perm.
  assert (Hsorted : StronglySorted latest_first data)
    by apply order_by_last_message_at_sorted.
  assert (Hpart : forall c, In c data -> participant uid c).
  { intros c Hc. apply (Permutation_in _ Hdata) in Hc. apply filter_In in Hc.
    destruct Hc as [_ Hc]. unfold Policy.conversations_select in Hc.
    apply orb_true_iff in Hc. rewrite !String.eqb_eq in Hc. exact Hc. }
  assert (Hrows1 : map row (map enhance data) = data).
  { rewrite map_map. simpl. apply map_id. }
  assert (Hrows2 : map row (map name (map enhance data)) = data).
  { rewrite !map_map. simpl. apply map_id. }
  assert (Hother : forall c, participant uid c ->
            Conversations.participant_1_id c <> Conversations.participant_2_id c ->
            ChatHeader.otherParticipantId (Some uid) c <> uid
            /\ participant (ChatHeader.otherParticipantId (Some uid) c) c).
  { intros c Hp Hne. destruct (otherParticipantId_spec uid c Hp Hne). tauto. }
  assert (Hnamed :
            match map enhance data with
            | [] => map enhance data
            | _ :: _ => if reachable profiles then map name (map enhance data)
                        else map enhance data
            end
            = if reachable profiles then map name (map enhance data)
              else map enhance data).
  { destruct (map enhance data); [now destruct (reachable profiles)|reflexivity]. }
  rewrite Hnamed. clear Hnamed.
  destruct (reachable profiles) eqn:Ep.
  - eexists. split; [reflexivity|].
    rewrite Hrows2. split; [exact Hdata|]. split; [exact Hsorted|].
    intros e He. apply in_map_iff in He. destruct He as [e1 [<- He1]].
    apply in_map_iff in He1. destruct He1 as [c [<- Hc]]. simpl.
    split; [now apply Hpart|]. split; [reflexivity|].
    split; [intros Hne; apply Hother; auto|reflexivity].
  - eexists. split; [reflexivity|].
    rewrite Hrows1. split; [exact Hdata|]. split; [exact Hsorted|].
    intros e He. apply in_map_iff in He. destruct He as [c [<- Hc]]. simpl.
    split; [now apply Hpart|]. split; [reflexivity|].
    split; [intros Hne; apply Hother; auto|discriminate].
Qed.

End InboxList.

(** bob opens the list after alice has written to him twice. *)
Lemma fetchConversations_lists_own_conversations_witness :
  exists listed',
    Inbox.fetchConversations sample_title sample_title sample_full_name
      (Sample.request "-"%string 150) (Sample.request "-"%string 151)
      (Some Sample.bob) Sample.two_conversations []
    = (listed', Inbox.Listed)
    /\ listed' = bobs_inbox.
Proof.
  destruct (fetchConversations_lists_own_conversations
              sample_title sample_title sample_full_name
              (Sample.request "-"%string 150) (Sample.request "-"%string 151)
              Sample.bob Sample.two_conversations [] eq_refl)
    as [listed' [Hf _]].
  exists listed'. split; [exact Hf|].
  vm_compute in Hf. now injection Hf as <-.
Defined.

(** * Reading as an outsider *)

Section Outsiders.
Import Supabase Chat.

(** X14: whoever takes no part in a conversation, signed in or not, gets the
    empty list from [fetchMessages], not an error: the screen shows no
    message and cannot tell the conversation from an empty one. *)
Theorem fetchMessages_outsider_sees_nothing
        (rt : round_trip) (user : session) (db : database) (c : Conversations.row)
        (st : state) :
  reachable rt = true -> conversations_pkey db -> In c (conversations db) ->
  (forall uid, user = Some uid -> ~ participant uid c) ->
  fetchMessages rt user db (Conversations.id c) st
  = (mkState [] (messageText st) false (sending st), Returned).
Proof.
  intros Hr Hpk Hc Hnot. unfold fetchMessages, select_messages. rewrite Hr.
  rewrite filter_none; [reflexivity|].
  intros m _. destruct user as [uid|]; simpl; [|reflexivity].
  destruct (String.eqb (Messages.conversation_id m) (Conversations.id c)) eqn:E;
    [|apply andb_false_r].
  apply String.eqb_eq in E. rewrite andb_true_r.
  destruct (Policy.messages_select uid db m) eqn:Es; [|reflexivity].
  apply (messages_select_spec db c m uid Hpk Hc E) in Es.
  now destruct (Hnot uid eq_refl).
Qed.

Lemma fetchMessages_outsider_sees_nothing_witness :
  fetchMessages (Sample.request "-"%string 150) (Some Sample.mallory) Sample.chat
                (Conversations.id Sample.about_bike)
                (mkState [] EmptyString true false)
  = (mkState [] EmptyString false false, Returned).
Proof.
  apply (fetchMessages_outsider_sees_nothing
           (Sample.request "-"%string 150) (Some Sample.mallory) Sample.chat
           Sample.about_bike (mkState [] EmptyString true false) eq_refl).
  - sample_pkey.
  - simpl; auto.
  - intros uid Hu [H|H]; injection Hu as <-; discriminate H.
Defined.

(** Three spaces and a line break are not sent. *)
Lemma handleSendMessage_returns_iff_blank_witness :
  handleSendMessage Policy.conversations_select
    (Sample.request "m-9"%string 150) (Sample.request "-"%string 151) 151
    (Some (Conversations.id Sample.about_bike)) (Some Sample.alice)
    (mkState [] (String " " (String " " (String " " (String "010" EmptyString))))
             false false)
    Sample.chat
  = (mkState [] (String " " (String " " (String " " (String "010" EmptyString))))
             false false,
     Sample.chat, Returned).
Proof.
  apply (proj2 (handleSendMessage_returns_iff_blank Policy.conversations_select
                  (Sample.request "m-9"%string 150) (Sample.request "-"%string 151) 151
                  (Some (Conversations.id Sample.about_bike)) (Some Sample.alice)
                  (mkState [] (String " " (String " " (String " " (String "010" EmptyString))))
                           false false)
                  Sample.chat)).
  apply (proj1 (handleSendMessage_returns_iff_blank Policy.conversations_select
                  (Sample.request "m-9"%string 150) (Sample.request "-"%string 151) 151
                  (Some (Conversations.id Sample.about_bike)) (Some Sample.alice)
                  (mkState [] (String " " (String " " (String " " (String "010" EmptyString))))
                           false false)
                  Sample.chat)).
  left. reflexivity.
Defined.

End Outsiders.

(** * Where the resolver and the send fall short *)

Section Shortfalls.
Import Supabase Chat.


Lemma update_denied (update : round_trip) (user : session) (db : database)
      (where_ : Conversations.row -> bool)
      (set_ : Conversations.row -> Conversations.row) :
  conversations
    (fst (update_conversations conversations_update_policy update user db where_ set_))
  = conversations db.
Proof.
  unfold update_conversations.
  destruct (negb (reachable update)); [reflexivity|]. simpl.
  rewrite <- (map_id (conversations db)) at 2.
  apply map_ext. intros c.
  destruct user; simpl; now rewrite andb_false_r.
Qed.

(** C9: under the policies the migration declares, the second write of
    [handleSendMessage] changes no row: whatever is sent, by whom and when,
    the conversations are after the send what they were before.  bob's
    answer is stored and the send succeeds, with the update request answered,
    and the conversation still carries the last_message_at of its creation;
    it would carry the client's time had the store granted the update to a
    participant. *)
Theorem handleSendMessage_update_denied :
  (forall insert update date id user st db,
      conversations
        (snd (fst (handleSendMessage conversations_update_policy
                     insert update date id user st db)))
      = conversations db)
  /\ touched conversations_update_policy
     = (mkDb [Sample.about_bike] [Sample.hello; Sample.reply], Sent Sample.reply)
  /\ Conversations.last_message_at Sample.about_bike = 100
  /\ touched Policy.conversations_select
     = (mkDb [set_last_message_at 131 Sample.about_bike] [Sample.hello; Sample.reply],
        Sent Sample.reply)
  /\ Conversations.last_message_at (set_last_message_at 131 Sample.about_bike) = 131.
Proof.
  split; [|repeat split].
  intros insert update date id user st db. unfold handleSendMessage.
  destruct id as [conv|]; [|reflexivity].
  destruct (_ || _); [reflexivity|].
  destruct (insert_message_returning_cases insert user db conv user (messageText st))
    as [[e He]|[uid [_ He]]]; rewrite He; simpl; [reflexivity|].
  match goal with
  | |- context [update_conversations ?g ?u ?s ?d ?w ?f] =>
      pose proof (update_denied u s d w f) as Hu;
      destruct (update_conversations g u s d w f) as [db2 r]
  end.
  simpl in *. exact Hu.
Qed.

End Shortfalls.
